(** * Surround-view calibration generator: a shallow embedding

    The repository holds two variants of one script,
    [src/camparameters/generate_calibration.py] (functions plus [main]) and
    [src/calibrationData/GenerateCals/generate_calibration.py] (the same two
    functions followed by module-level code).  Both are embedded below, each
    in a module of its own, over a common model of the NumPy scalars and
    arrays and of OpenCV's [FileStorage] they use.

    Numbers.  A Python/NumPy float is modelled as an extended real
    ([pyfloat]): a real number, a signed infinity, or NaN.  The special
    values follow IEEE-754 (NaN is absorbing and compares false, a non-zero
    number divided by zero is an infinity); the arithmetic on finite values
    is the exact one, so rounding, overflow and the sign of zero are
    idealised away.  The cast to single precision ([astype(np.float32)],
    [dtype=np.float32]) therefore keeps the value and only records the
    element type. *)

From Stdlib Require Import Reals Lra ZArith String List Bool.
From Stdlib Require Import DecimalString DecimalZ DecimalPos RNsatz.
From stdpp Require Import gmap strings.
Import ListNotations.

Open Scope R_scope.

(** ** Python floats as extended reals *)

Inductive pyfloat : Type :=
  | Fin (r : R)
  | Inf (neg : bool)
  | NaN.

Definition Rneg (r : R) : bool := if Rlt_dec r 0 then true else false.

Definition of_int (n : Z) : pyfloat := Fin (IZR n).

Definition fneg (a : pyfloat) : pyfloat :=
  match a with
  | Fin x => Fin (- x)
  | Inf s => Inf (negb s)
  | NaN => NaN
  end.

Definition fadd (a b : pyfloat) : pyfloat :=
  match a, b with
  | Fin x, Fin y => Fin (x + y)
  | Fin _, Inf s => Inf s
  | Inf s, Fin _ => Inf s
  | Inf s, Inf t => if eqb s t then Inf s else NaN
  | _, _ => NaN
  end.

Definition fsub (a b : pyfloat) : pyfloat := fadd a (fneg b).

Definition fmul (a b : pyfloat) : pyfloat :=
  match a, b with
  | Fin x, Fin y => Fin (x * y)
  | Fin x, Inf s => if Req_dec_T x 0 then NaN else Inf (xorb (Rneg x) s)
  | Inf s, Fin y => if Req_dec_T y 0 then NaN else Inf (xorb s (Rneg y))
  | Inf s, Inf t => Inf (xorb s t)
  | _, _ => NaN
  end.

(** NumPy scalar division: dividing by zero does not raise, it yields an
    infinity (NaN for 0/0) and a warning. *)
Definition fdiv (a b : pyfloat) : pyfloat :=
  match a, b with
  | Fin x, Fin y =>
      if Req_dec_T y 0
      then (if Req_dec_T x 0 then NaN else Inf (Rneg x))
      else Fin (x / y)
  | Fin _, Inf _ => Fin 0
  | Inf s, Fin y => Inf (xorb s (Rneg y))
  | _, _ => NaN
  end.

Definition fabs (a : pyfloat) : pyfloat :=
  match a with
  | Fin x => Fin (Rabs x)
  | Inf _ => Inf false
  | NaN => NaN
  end.

(** [a < b]; every comparison with NaN is false. *)
Definition flt (a b : pyfloat) : bool :=
  match a, b with
  | Fin x, Fin y => if Rlt_dec x y then true else false
  | Fin _, Inf s => negb s
  | Inf s, Fin _ => s
  | Inf s, Inf t => s && negb t
  | _, _ => false
  end.

(** ** The part of NumPy the scripts use *)

Module np.

Inductive dtype : Type := float32 | float64 | int32.



(** [np.radians(x)] is [x * (pi / 180)]. *)
Definition radians (x : pyfloat) : pyfloat := fmul x (Fin (PI / 180)).

Definition cos (a : pyfloat) : pyfloat :=
  match a with Fin x => Fin (Rtrigo_def.cos x) | _ => NaN end.

Definition sin (a : pyfloat) : pyfloat :=
  match a with Fin x => Fin (Rtrigo_def.sin x) | _ => NaN end.

(** At a pole the quotient sin/cos is a division by zero, hence an
    infinity, as for [fdiv]. *)
Definition tan (a : pyfloat) : pyfloat :=
  match a with
  | Fin x =>
      if Req_dec_T (Rtrigo_def.cos x) 0
      then Inf (Rneg (Rtrigo_def.sin x))
      else Fin (Rtrigo1.tan x)
  | _ => NaN
  end.

End np.

(** Exceptions the modelled library calls can raise. *)
Inductive exn : Type :=
  | ValueError     (* shape mismatch in [@] *)
  | LinAlgError    (* [np.linalg.det] of a non-square array *)
  | IndexError.    (* subscript out of range *)

Inductive result (A : Type) : Type :=
  | Ok (a : A)
  | Raise (e : exn).
Arguments Ok {A} a.
Arguments Raise {A} e.

#[global] Instance result_ret : MRet result := fun A a => Ok a.
#[global] Instance result_bind : MBind result := fun A B f m =>
  match m with
  | Ok a => f a
  | Raise e => Raise e
  end.

(** ** Two-dimensional arrays

    A 2-D array is the list of its rows, as in the nested list literal
    given to [np.array]. *)

Abbreviation matrix := (list (list pyfloat)).

Definition ncols (A : matrix) : nat :=
  match A with
  | [] => O
  | r :: _ => length r
  end.

Definition column (j : nat) (A : matrix) : list pyfloat :=
  map (fun r => nth j r (Fin 0)) A.

Definition transpose (A : matrix) : matrix :=
  map (fun j => column j A) (seq 0 (ncols A)).

(** Sum of the pairwise products, accumulated from zero. *)
Definition dot (u v : list pyfloat) : pyfloat :=
  fold_left fadd (zip_with fmul u v) (Fin 0).

Definition rectangular (A : matrix) : bool :=
  forallb (fun r => Nat.eqb (length r) (ncols A)) A.

(** [A @ B]: defined when both are rectangular and the rows of [A] are as
    long as [B] has rows; a [ValueError] otherwise. *)
Definition matmul (A B : matrix) : result matrix :=
  if rectangular A && rectangular B && Nat.eqb (ncols A) (length B)
  then Ok (map (fun row => map (fun col => dot row col) (transpose B)) A)
  else Raise ValueError.

Infix "@@" := matmul (at level 40, left associativity).

(** [np.linalg.det]: the determinant of a square array, here by expansion
    along the first row (the library factorises instead; on exact
    arithmetic the value is the same, and a NaN entry makes both NaN).  An
    array that is not square is a [LinAlgError]. *)
Definition remove_at {A} (j : nat) (l : list A) : list A :=
  firstn j l ++ skipn (S j) l.

Fixpoint laplace (n : nat) (A : matrix) : pyfloat :=
  match n, A with
  | S n', r :: rest =>
      fold_left fadd
        (map (fun jx =>
                let term := fmul (snd jx) (laplace n' (map (remove_at (fst jx)) rest)) in
                if Nat.even (fst jx) then term else fneg term)
             (combine (seq 0 (length r)) r))
        (Fin 0)
  | _, _ => Fin 1
  end.

Definition det (A : matrix) : result pyfloat :=
  if rectangular A && Nat.eqb (length A) (ncols A)
  then Ok (laplace (length A) A)
  else Raise LinAlgError.

(** ** Files and console

    [cv2.FileStorage] in write mode collects keyed nodes and stores them
    under its file name when released.  The file system is a finite map
    from file names to documents; writing a name again replaces the
    document. *)

Module cv2.

Inductive node : Type :=
  | Real (x : pyfloat)                       (* a Python float *)
  | Int (n : Z)                              (* a Python int *)
  | Str (s : string)
  | Mat (dt : np.dtype) (rows : matrix)      (* a 2-D float array *)
  | IntArray (dt : np.dtype) (xs : list Z).  (* a 1-D integer array *)

Abbreviation document := (list (string * node)).

Record FileStorage : Type :=
  { filename : string; nodes : document }.

Definition open_write (fname : string) : FileStorage :=
  {| filename := fname; nodes := [] |}.

Definition write (fs : FileStorage) (key : string) (v : node) : FileStorage :=
  {| filename := filename fs; nodes := nodes fs ++ [(key, v)] |}.

End cv2.

(** The lines printed that show a computed value: the focal length, the
    name of a file just saved, the rows of a rotation matrix, the viewing
    direction and the determinant with its mark.  Lines that only repeat
    the configuration or are fixed text (banners, camera headers, the
    closing list of files and instructions) are left out, and so is the
    rounding of the numbers to a few decimals. *)
Inductive line : Type :=
  | CalculatedFocalLength (f : pyfloat)
  | Saved (fname : string)
  | RotationRow (a b c : pyfloat)
  | ViewingDirection (x y z : pyfloat)
  | DetLine (d : pyfloat) (mark : string).

Record world : Type :=
  { files : gmap string cv2.document;
    stdout : list line }.

Definition io (A : Type) : Type := world → result A * world.

#[global] Instance io_ret : MRet io := fun A a w => (Ok a, w).
#[global] Instance io_bind : MBind io := fun A B f m w =>
  match m w with
  | (Ok a, w') => f a w'
  | (Raise e, w') => (Raise e, w')
  end.

Definition lift {A} (r : result A) : io A := fun w => (r, w).

Definition print (l : line) : io unit := fun w =>
  (Ok tt, {| files := files w; stdout := stdout w ++ [l] |}).

Definition release (fs : cv2.FileStorage) : io unit := fun w =>
  (Ok tt, {| files := <[cv2.filename fs := cv2.nodes fs]> (files w);
             stdout := stdout w |}).

(** A [for] loop over a list: the body runs on each element in turn and an
    exception leaves the loop. *)
Fixpoint for_each {A} (xs : list A) (body : A → io unit) : io unit :=
  match xs with
  | [] => mret tt
  | x :: xs' => body x ≫= (fun _ => for_each xs' body)
  end.

(** [str(n)] for an integer, as an f-string prints it. *)
Definition str (n : Z) : string := NilZero.string_of_int (Z.to_int n).

Definition np_zeros (rows cols : nat) : matrix :=
  repeat (repeat (Fin 0) cols) rows.

(** [A[i]] on a list; out of range is an [IndexError]. *)
Definition getitem {A} (l : list A) (i : nat) : result A :=
  match nth_error l i with
  | Some x => Ok x
  | None => Raise IndexError
  end.

(** [A[:, j]], the column [j] of a 2-D array. *)
Definition getcolumn (A : matrix) (j : nat) : result (list pyfloat) :=
  if Nat.ltb j (ncols A) then Ok (column j A) else Raise IndexError.

(** [A[i, j]] on a 2-D array. *)
Definition getitem2 (A : matrix) (i j : nat) : result pyfloat :=
  row ← getitem A i; getitem row j.

(** One entry of the [cameras] list:
    [(idx, name, yaw, pitch, roll, ip, port)]. *)
Definition camera : Type :=
  Z * string * pyfloat * pyfloat * pyfloat * string * Z.

(** The values of the CONFIGURATION block, which the scripts hold as
    literals. *)
Record config : Type :=
  { image_width : pyfloat;
    image_height : pyfloat;
    horizontal_fov : pyfloat;
    pitch_down : pyfloat;
    cameras : list camera }.

Definition configuration : config :=
  let pitch_down := of_int 20 in
  {| image_width := of_int 1280;
     image_height := of_int 800;
     horizontal_fov := of_int 120;
     pitch_down := pitch_down;
     cameras :=
       [ (0%Z, "Front", of_int 0,   pitch_down, of_int 0, "192.168.45.10", 5020%Z);
         (1%Z, "Left",  of_int 90,  pitch_down, of_int 0, "192.168.45.11", 5021%Z);
         (2%Z, "Rear",  of_int 180, pitch_down, of_int 0, "192.168.45.12", 5022%Z);
         (3%Z, "Right", of_int 270, pitch_down, of_int 0, "192.168.45.13", 5023%Z) ] |}.

(** ** Variant [src/camparameters/generate_calibration.py] *)

Module Camparameters.

Definition euler_to_rotation_matrix (yaw_deg pitch_deg roll_deg : pyfloat)
  : result matrix :=
  let yaw := np.radians yaw_deg in
  let pitch := np.radians pitch_deg in
  let roll := np.radians roll_deg in
  (* Rotation around Z-axis (yaw) *)
  let Rz := [ [np.cos yaw; fneg (np.sin yaw); of_int 0];
              [np.sin yaw; np.cos yaw; of_int 0];
              [of_int 0; of_int 0; of_int 1] ] in
  (* Rotation around X-axis (pitch - tilt down is positive) *)
  let Rx := [ [of_int 1; of_int 0; of_int 0];
              [of_int 0; np.cos pitch; fneg (np.sin pitch)];
              [of_int 0; np.sin pitch; np.cos pitch] ] in
  (* Rotation around Y-axis (roll) *)
  let Ry := [ [np.cos roll; of_int 0; np.sin roll];
              [of_int 0; of_int 1; of_int 0];
              [fneg (np.sin roll); of_int 0; np.cos roll] ] in
  (* Combined: Rz * Ry * Rx *)
  RzRy ← Rz @@ Ry; RzRy @@ Rx.

(** The call with the third argument left out: [roll_deg=0]. *)
Definition euler_to_rotation_matrix_default (yaw_deg pitch_deg : pyfloat)
  : result matrix :=
  euler_to_rotation_matrix yaw_deg pitch_deg (of_int 0).

Definition fov_to_focal_length (fov_deg image_width : pyfloat) : pyfloat :=
  let fov_rad := np.radians fov_deg in
  let focal_length :=
    fdiv image_width (fmul (of_int 2) (np.tan (fdiv fov_rad (of_int 2)))) in
  focal_length.

Definition save_camera_yaml (idx : Z) (name : string) (R : matrix)
    (focal_length cx cy : pyfloat) (ip : string) (port : Z) : io unit :=
  (* Create intrinsic matrix *)
  let K := [ [focal_length; of_int 0; cx];
             [of_int 0; focal_length; cy];
             [of_int 0; of_int 0; of_int 1] ] in
  let filename := "Camparam" +:+ str idx +:+ ".yaml" in
  let fs := cv2.open_write filename in
  let fs := cv2.write fs "FocalLength" (cv2.Real focal_length) in
  let fs := cv2.write fs "Intrisic" (cv2.Mat np.float32 K) in
  let fs := cv2.write fs "Rotation" (cv2.Mat np.float32 R) in
  let fs := cv2.write fs "Translation" (cv2.Mat np.float64 (np_zeros 3 1)) in
  (* Add metadata as comments (stored as additional fields) *)
  let fs := cv2.write fs "CameraName" (cv2.Str name) in
  let fs := cv2.write fs "CameraIP" (cv2.Str ip) in
  let fs := cv2.write fs "CameraPort" (cv2.Int port) in
  release fs;;
  print (Saved filename).

(** The body of the loop over [cameras]. *)
Definition camera_step (focal_length image_width image_height : pyfloat)
    (c : camera) : io unit :=
  let '(idx, name, yaw, pitch, roll, ip, port) := c in
  (* Calculate rotation matrix *)
  R ← lift (euler_to_rotation_matrix yaw pitch roll);
  (* Save to YAML *)
  save_camera_yaml idx name R focal_length
    (fdiv image_width (of_int 2)) (fdiv image_height (of_int 2)) ip port;;
  (* Show rotation details *)
  optical_axis ← lift (getcolumn R 2);
  x ← lift (getitem optical_axis 0);
  y ← lift (getitem optical_axis 1);
  z ← lift (getitem optical_axis 2);
  print (ViewingDirection x y z);;
  (* Verify determinant (should be 1.0 for valid rotation) *)
  d ← lift (det R);
  print (DetLine d (if flt (fabs (fsub d (Fin 1))) (Fin (1 / 1000))
                    then "✓" else "✗ ERROR")).

(** [main], with the CONFIGURATION block as an argument. *)
Definition main_with (c : config) : io unit :=
  (* Calculate focal length *)
  let focal_length := fov_to_focal_length (horizontal_fov c) (image_width c) in
  print (CalculatedFocalLength focal_length);;
  for_each (cameras c)
    (camera_step focal_length (image_width c) (image_height c));;
  (* Create default output crop configuration *)
  let output_width := 1920%Z in
  let output_height := 1080%Z in
  let output_config := "corner_warppts.yaml" in
  let fs := cv2.open_write output_config in
  let fs := cv2.write fs "res_size" (cv2.IntArray np.int32 [output_width; output_height]) in
  let fs := cv2.write fs "tl" (cv2.IntArray np.int32 [0%Z; 0%Z]) in
  let fs := cv2.write fs "tr" (cv2.IntArray np.int32 [output_width; 0%Z]) in
  let fs := cv2.write fs "bl" (cv2.IntArray np.int32 [0%Z; output_height]) in
  let fs := cv2.write fs "br" (cv2.IntArray np.int32 [output_width; output_height]) in
  release fs;;
  print (Saved "corner_warppts.yaml").

Definition main : io unit := main_with configuration.

End Camparameters.

(** ** Variant [src/calibrationData/GenerateCals/generate_calibration.py] *)

Module GenerateCals.

Definition euler_to_rotation_matrix (yaw_deg pitch_deg roll_deg : pyfloat)
  : result matrix :=
  let yaw := np.radians yaw_deg in
  let pitch := np.radians pitch_deg in
  let roll := np.radians roll_deg in
  let Rz := [ [np.cos yaw; fneg (np.sin yaw); of_int 0];
              [np.sin yaw; np.cos yaw; of_int 0];
              [of_int 0; of_int 0; of_int 1] ] in
  let Rx := [ [of_int 1; of_int 0; of_int 0];
              [of_int 0; np.cos pitch; fneg (np.sin pitch)];
              [of_int 0; np.sin pitch; np.cos pitch] ] in
  let Ry := [ [np.cos roll; of_int 0; np.sin roll];
              [of_int 0; of_int 1; of_int 0];
              [fneg (np.sin roll); of_int 0; np.cos roll] ] in
  RzRy ← Rz @@ Ry; RzRy @@ Rx.

Definition euler_to_rotation_matrix_default (yaw_deg pitch_deg : pyfloat)
  : result matrix :=
  euler_to_rotation_matrix yaw_deg pitch_deg (of_int 0).

Definition fov_to_focal_length (fov_deg image_width : pyfloat) : pyfloat :=
  let fov_rad := np.radians fov_deg in
  let focal_length :=
    fdiv image_width (fmul (of_int 2) (np.tan (fdiv fov_rad (of_int 2)))) in
  focal_length.

(** The body of the loop over [cameras]. *)
Definition camera_step (focal_length image_width image_height : pyfloat)
    (c : camera) : io unit :=
  let '(idx, name, yaw, pitch, roll, ip, port) := c in
  (* Calculate rotation matrix *)
  R ← lift (euler_to_rotation_matrix yaw pitch roll);
  (* Create intrinsic matrix *)
  let K := [ [focal_length; of_int 0; fdiv image_width (of_int 2)];
             [of_int 0; focal_length; fdiv image_height (of_int 2)];
             [of_int 0; of_int 0; of_int 1] ] in
  (* Save to YAML *)
  let filename := "Camparam" +:+ str idx +:+ ".yaml" in
  let fs := cv2.open_write filename in
  let fs := cv2.write fs "FocalLength" (cv2.Real focal_length) in
  let fs := cv2.write fs "Intrisic" (cv2.Mat np.float32 K) in
  let fs := cv2.write fs "Rotation" (cv2.Mat np.float32 R) in
  let fs := cv2.write fs "Translation" (cv2.Mat np.float64 (np_zeros 3 1)) in
  release fs;;
  print (Saved filename);;
  r00 ← lift (getitem2 R 0 0); r01 ← lift (getitem2 R 0 1); r02 ← lift (getitem2 R 0 2);
  print (RotationRow r00 r01 r02);;
  r10 ← lift (getitem2 R 1 0); r11 ← lift (getitem2 R 1 1); r12 ← lift (getitem2 R 1 2);
  print (RotationRow r10 r11 r12);;
  r20 ← lift (getitem2 R 2 0); r21 ← lift (getitem2 R 2 1); r22 ← lift (getitem2 R 2 2);
  print (RotationRow r20 r21 r22);;
  (* Show optical axis (viewing direction) *)
  optical_axis ← lift (getcolumn R 2);
  x ← lift (getitem optical_axis 0);
  y ← lift (getitem optical_axis 1);
  z ← lift (getitem optical_axis 2);
  print (ViewingDirection x y z).

(** The module-level code, with the CONFIGURATION block as an argument. *)
Definition script_with (c : config) : io unit :=
  (* Calculate focal length *)
  let focal_length := fov_to_focal_length (horizontal_fov c) (image_width c) in
  print (CalculatedFocalLength focal_length);;
  for_each (cameras c)
    (camera_step focal_length (image_width c) (image_height c));;
  (* Create default corner warp points for HD output *)
  let output_config := "corner_warppts.yaml" in
  let fs := cv2.open_write output_config in
  let fs := cv2.write fs "res_size" (cv2.IntArray np.int32 [1920%Z; 1080%Z]) in
  let fs := cv2.write fs "tl" (cv2.IntArray np.int32 [0%Z; 0%Z]) in
  let fs := cv2.write fs "tr" (cv2.IntArray np.int32 [1920%Z; 0%Z]) in
  let fs := cv2.write fs "bl" (cv2.IntArray np.int32 [0%Z; 1080%Z]) in
  let fs := cv2.write fs "br" (cv2.IntArray np.int32 [1920%Z; 1080%Z]) in
  release fs;;
  print (Saved output_config).

Definition script : io unit := script_with configuration.

End GenerateCals.


(** ** Vocabulary of the statements *)

(** A matrix all of whose entries are finite. *)
Definition finite (M : list (list R)) : matrix := map (map Fin) M.

Definition identity3 : matrix :=
  [ [Fin 1; Fin 0; Fin 0];
    [Fin 0; Fin 1; Fin 0];
    [Fin 0; Fin 0; Fin 1] ].

(** The elementary rotations by an angle in radians, with the signs of the
    arrays [Rz], [Rx] and [Ry] of the scripts. *)
Definition Rz (t : R) : list (list R) :=
  [ [cos t; - sin t; 0]; [sin t; cos t; 0]; [0; 0; 1] ].

Definition Rx (t : R) : list (list R) :=
  [ [1; 0; 0]; [0; cos t; - sin t]; [0; sin t; cos t] ].

Definition Ry (t : R) : list (list R) :=
  [ [cos t; 0; sin t]; [0; 1; 0]; [- sin t; 0; cos t] ].

(** The entries of [Rz a * Ry c * Rx b], multiplied out. *)
Definition rotation_entries (a b c : R) : list (list R) :=
  [ [ cos a * cos c;
      cos a * sin c * sin b - sin a * cos b;
      cos a * sin c * cos b + sin a * sin b ];
    [ sin a * cos c;
      sin a * sin c * sin b + cos a * cos b;
      sin a * sin c * cos b - cos a * sin b ];
    [ - sin c;
      cos c * sin b;
      cos c * cos b ] ].

Definition deg (x : R) : R := x * (PI / 180).

(** [|a - b| < tol], the comparison the determinant check of [main] makes. *)
Definition within (tol a b : pyfloat) : bool := flt (fabs (fsub a b)) tol.

Definition rows_within (tol : pyfloat) (u v : list pyfloat) : bool :=
  Nat.eqb (length u) (length v)
  && forallb (fun xy => within tol (fst xy) (snd xy)) (combine u v).

Definition all_within (tol : pyfloat) (A B : matrix) : bool :=
  Nat.eqb (length A) (length B)
  && forallb (fun uv => rows_within tol (fst uv) (snd uv)) (combine A B).

(** Orthonormality up to a tolerance: the determinant is within [tol] of 1
    and every entry of the Gram matrix is within [tol] of the identity's. *)
Definition orthonormal_within (tol : pyfloat) (M : matrix) : Prop :=
  ∃ d G,
    det M = Ok d ∧ within tol d (Fin 1) = true ∧
    transpose M @@ M = Ok G ∧ all_within tol G identity3 = true.

Definition empty_world : world := {| files := ∅; stdout := [] |}.

Definition camera_file_name (idx : Z) : string :=
  "Camparam" +:+ str idx +:+ ".yaml".

Definition intrinsic (f cx cy : pyfloat) : matrix :=
  [ [f; Fin 0; cx]; [Fin 0; f; cy]; [Fin 0; Fin 0; Fin 1] ].

Definition calibration_fields (f cx cy : pyfloat) (Rot : matrix) : cv2.document :=
  [ ("FocalLength", cv2.Real f);
    ("Intrisic", cv2.Mat np.float32 (intrinsic f cx cy));
    ("Rotation", cv2.Mat np.float32 Rot);
    ("Translation", cv2.Mat np.float64 [[Fin 0]; [Fin 0]; [Fin 0]]) ].

Definition metadata_fields (name ip : string) (port : Z) : cv2.document :=
  [ ("CameraName", cv2.Str name);
    ("CameraIP", cv2.Str ip);
    ("CameraPort", cv2.Int port) ].

Definition crop_document : cv2.document :=
  [ ("res_size", cv2.IntArray np.int32 [1920%Z; 1080%Z]);
    ("tl", cv2.IntArray np.int32 [0%Z; 0%Z]);
    ("tr", cv2.IntArray np.int32 [1920%Z; 0%Z]);
    ("bl", cv2.IntArray np.int32 [0%Z; 1080%Z]);
    ("br", cv2.IntArray np.int32 [1920%Z; 1080%Z]) ].

Definition det_mark (d : pyfloat) : string :=
  if within (Fin (1 / 1000)) d (Fin 1) then "✓" else "✗ ERROR".

Definition camera_idx (c : camera) : Z :=
  let '(idx, _, _, _, _, _, _) := c in idx.

Definition camera_angles (c : camera) : pyfloat * pyfloat * pyfloat :=
  let '(_, _, yaw, pitch, roll, _, _) := c in (yaw, pitch, roll).

Definition is_metadata_key (k : string) : bool :=
  existsb (String.eqb k) ["CameraName"; "CameraIP"; "CameraPort"].

(** A document without its camera metadata. *)
Definition strip_metadata (d : cv2.document) : cv2.document :=
  List.filter (fun kv => negb (is_metadata_key (fst kv))) d.

(** The CONFIGURATION block with another field of view. *)
Definition with_fov (fov : pyfloat) (c : config) : config :=
  {| image_width := image_width c;
     image_height := image_height c;
     horizontal_fov := fov;
     pitch_down := pitch_down c;
     cameras := cameras c |}.

(** The effect of one turn of the camera loop of either script on the
    files and the console, and of the final block that writes the crop
    file. *)
Definition main_step (c : config) : world → camera → world :=
  fun w cam =>
    snd (Camparameters.camera_step
           (Camparameters.fov_to_focal_length (horizontal_fov c) (image_width c))
           (image_width c) (image_height c) cam w).

Definition script_step (c : config) : world → camera → world :=
  fun w cam =>
    snd (GenerateCals.camera_step
           (GenerateCals.fov_to_focal_length (horizontal_fov c) (image_width c))
           (image_width c) (image_height c) cam w).

Definition with_focal_line (c : config) (w : world) : world :=
  {| files := files w;
     stdout := stdout w
               ++ [CalculatedFocalLength
                     (Camparameters.fov_to_focal_length (horizontal_fov c) (image_width c))] |}.

Definition with_crop (w : world) : world :=
  {| files := <["corner_warppts.yaml" := crop_document]> (files w);
     stdout := stdout w ++ [Saved "corner_warppts.yaml"] |}.

Definition seven_keys : list string :=
  ["FocalLength"; "Intrisic"; "Rotation"; "Translation";
   "CameraName"; "CameraIP"; "CameraPort"].

Definition four_keys : list string :=
  ["FocalLength"; "Intrisic"; "Rotation"; "Translation"].

(** The line [main] prints after checking the determinant of the rotation
    of camera [c]. *)
Definition det_line_of (c : camera) (l : line) : Prop :=
  let '(yaw, pitch, roll) := camera_angles c in
  ∃ Rot d,
    Camparameters.euler_to_rotation_matrix yaw pitch roll = Ok Rot
    ∧ det Rot = Ok d
    ∧ l = DetLine d (if within (Fin (1 / 1000)) d (Fin 1) then "✓" else "✗ ERROR").

(** The lines that show a 3x3 array row by row. *)
Definition rotation_rows (Rot : matrix) : list line :=
  flat_map (fun r => match r with
                     | [a; b; c] => [RotationRow a b c]
                     | _ => []
                     end) Rot.

Definition is_det_line (l : line) : bool :=
  match l with
  | DetLine _ _ => true
  | _ => false
  end.

(** The calibration file of the built-in rig for a camera at [yaw] degrees. *)
Definition builtin_record (yaw : R) (name ip : string) (port : Z) : cv2.document :=
  calibration_fields (Fin (640 / sqrt 3)) (Fin 640) (Fin 400)
    (finite (rotation_entries (deg yaw) (deg 20) (deg 0)))
  ++ metadata_fields name ip port.

(** A rig whose first camera has an undefined yaw ([float("nan")]). *)
Definition nan_rig : config :=
  {| image_width := of_int 1280;
     image_height := of_int 800;
     horizontal_fov := of_int 120;
     pitch_down := of_int 20;
     cameras :=
       [ (0%Z, "Front", NaN,       of_int 20, of_int 0, "192.168.45.10", 5020%Z);
         (1%Z, "Left",  of_int 90, of_int 20, of_int 0, "192.168.45.11", 5021%Z) ] |}.

(** A number that is neither an infinity nor NaN. *)
Definition is_finite (a : pyfloat) : bool :=
  match a with
  | Fin _ => true
  | _ => false
  end.

(** The node stored under a key of a document (the first, if the key is
    repeated), as a reader of the file finds it. *)
Fixpoint doc_get (key : string) (d : cv2.document) : option cv2.node :=
  match d with
  | [] => None
  | (k, v) :: d' => if String.eqb k key then Some v else doc_get key d'
  end.

(** The rotation computed for a camera. *)
Definition rotation_of (cam : camera) : result matrix :=
  let '(yaw, pitch, roll) := camera_angles cam in
  Camparameters.euler_to_rotation_matrix yaw pitch roll.

(** The document each script stores for a camera of a rig, given the
    rotation computed for it. *)
Definition script_document (c : config) (Rot : matrix) : cv2.document :=
  calibration_fields
    (Camparameters.fov_to_focal_length (horizontal_fov c) (image_width c))
    (fdiv (image_width c) (of_int 2)) (fdiv (image_height c) (of_int 2)) Rot.

Definition main_document (c : config) (cam : camera) (Rot : matrix) : cv2.document :=
  let '(_, name, _, _, _, ip, port) := cam in
  script_document c Rot ++ metadata_fields name ip port.

(** The file system after storing the documents of a list of cameras, one
    after the other. *)
Definition store_all (doc : camera → cv2.document) (cams : list camera)
    (m : gmap string cv2.document) : gmap string cv2.document :=
  fold_left (fun m0 cam => <[camera_file_name (camera_idx cam) := doc cam]> m0) cams m.

(** The ray through the image column at [t] times the half width, as a
    3x1 array: direction (t tan(fov/2), 0, 1) in camera coordinates. *)
Definition ray_at (fov t : R) : matrix :=
  [ [Fin (t * tan (deg fov / 2))]; [Fin 0]; [Fin 1] ].

(** The document [main], respectively the second script, stores for a
    camera. *)
Definition stored_by_main (c : config) (cam : camera) : cv2.document :=
  match rotation_of cam with
  | Ok Rot => main_document c cam Rot
  | Raise _ => []
  end.

Definition stored_by_script (c : config) (cam : camera) : cv2.document :=
  match rotation_of cam with
  | Ok Rot => script_document c Rot
  | Raise _ => []
  end.

Definition camera_file (cam : camera) : string :=
  camera_file_name (camera_idx cam).

(** The last camera of a list whose file has the name [k]. *)
Definition last_camera_of (cams : list camera) (k : string) : option camera :=
  find (fun cam => bool_decide (camera_file cam = k)) (rev cams).

(** * Proofs *)

(** ** Evaluation of the array operations *)

Ltac run_arrays :=
  cbv [matmul rectangular ncols forallb length Nat.eqb andb mbind result_bind
       transpose column seq map nth dot zip_with fold_left finite det laplace
       remove_at firstn skipn app combine fst snd Nat.even
       Rz Rx Ry rotation_entries identity3].

Ltac run_finite :=
  cbv [np.radians np.cos np.sin fmul fneg fadd fsub of_int deg].

Lemma Fin_eq (x y : R) : x = y → Fin x = Fin y.
Proof. intros ->; reflexivity. Qed.

(** Reduces an equation between arrays of finite numbers to equations
    between their entries. *)
Ltac entries :=
  repeat match goal with
    | |- Ok _ = Ok _ => apply f_equal
    | |- _ :: _ = _ :: _ => apply f_equal2
    | |- [] = [] => reflexivity
    | |- Fin _ = Fin _ => apply Fin_eq
    end.

(** ** The model on concrete inputs *)

Example str_examples : str 0 = "0" ∧ str 3 = "3" ∧ str 12 = "12" ∧ str (-7) = "-7".
Proof. repeat split; reflexivity. Qed.

Example camera_file_name_3 : camera_file_name 3 = "Camparam3.yaml".
Proof. reflexivity. Qed.

Example zeros_3_1 : np_zeros 3 1 = [[Fin 0]; [Fin 0]; [Fin 0]].
Proof. reflexivity. Qed.

Example matmul_shape_mismatch :
  [[Fin 1; Fin 2]] @@ [[Fin 1; Fin 2]] = Raise ValueError.
Proof. reflexivity. Qed.

Example nan_is_absorbing_and_unordered :
  fadd NaN (Fin 1) = NaN ∧ fmul (Fin 0) NaN = NaN
  ∧ flt NaN (Fin 1) = false ∧ flt (Fin 1) NaN = false.
Proof. repeat split; reflexivity. Qed.

Example det_needs_a_square : det [[Fin 1; Fin 0; Fin 2]] = Raise LinAlgError.
Proof. reflexivity. Qed.

Example det_2x2 : det [[Fin 2; Fin 1]; [Fin 4; Fin 3]] = Ok (Fin 2).
Proof. run_arrays. run_finite. entries. ring. Qed.

Example matmul_2x2 :
  [[Fin 1; Fin 2]; [Fin 3; Fin 4]] @@ [[Fin 0; Fin 1]; [Fin 1; Fin 0]]
  = Ok [[Fin 2; Fin 1]; [Fin 4; Fin 3]].
Proof. run_arrays. run_finite. entries. all: ring. Qed.

Ltac trig_names a :=
  let H := fresh "Htrig" in
  pose proof (sin2_cos2 a) as H; unfold Rsqr in H;
  generalize dependent (sin a); generalize dependent (cos a); intros.

Section Geometry.

Import Camparameters.

Lemma euler_finite (y p r : R) :
  euler_to_rotation_matrix (Fin y) (Fin p) (Fin r)
  = Ok (finite (rotation_entries (deg y) (deg p) (deg r))).
Proof.
  unfold euler_to_rotation_matrix.
  run_finite. run_arrays. run_finite.
  entries. all: ring.
Qed.

(** Whatever the arguments, also infinite or NaN, the result is a 3x3
    array: the products are shape-correct. *)
Lemma euler_shape (yaw pitch roll : pyfloat) :
  ∃ a b c d e f g h i,
    euler_to_rotation_matrix yaw pitch roll = Ok [[a; b; c]; [d; e; f]; [g; h; i]].
Proof.
  unfold euler_to_rotation_matrix.
  cbv [matmul rectangular ncols forallb length Nat.eqb andb mbind result_bind
       transpose column seq map nth].
  do 9 eexists. reflexivity.
Qed.

Lemma det_rotation (a b c : R) :
  det (finite (rotation_entries a b c)) = Ok (Fin 1).
Proof.
  run_arrays. run_finite. entries.
  trig_names a. trig_names b. trig_names c.
  match goal with
  | Ha : ?sa * ?sa + ?ca * ?ca = 1,
    Hb : ?sb * ?sb + ?cb * ?cb = 1,
    Hc : ?sc * ?sc + ?cc * ?cc = 1 |- _ =>
      transitivity ((sa * sa + ca * ca) * (sb * sb + cb * cb) * (sc * sc + cc * cc));
      [ ring | rewrite Ha, Hb, Hc; ring ]
  end.
Qed.

Lemma gram_rotation (a b c : R) :
  transpose (finite (rotation_entries a b c)) @@ finite (rotation_entries a b c)
  = Ok identity3.
Proof.
  run_arrays. run_finite. entries.
  all: trig_names a; trig_names b; trig_names c; nsatz.
Qed.

Lemma within_self (tol x : R) : 0 < tol → within (Fin tol) (Fin x) (Fin x) = true.
Proof.
  intros Htol. cbv [within flt fabs fsub fadd fneg].
  destruct (Rlt_dec _ _) as [|Hn]; [reflexivity|].
  exfalso; apply Hn.
  replace (x + - x) with 0 by ring. rewrite Rabs_R0. exact Htol.
Qed.

Lemma all_within_identity3 (tol : R) :
  0 < tol → all_within (Fin tol) identity3 identity3 = true.
Proof.
  intros Htol.
  cbv [all_within rows_within identity3 length Nat.eqb combine forallb fst snd andb].
  rewrite !within_self by assumption. reflexivity.
Qed.

(** The three elementary rotations multiplied in the order of the
    script, and in the other association. *)
Lemma product_left (a b c : R) :
  (finite (Rz a) @@ finite (Ry c)) ≫= (fun M => M @@ finite (Rx b))
  = Ok (finite (rotation_entries a b c)).
Proof. run_arrays. run_finite. entries. all: ring. Qed.

Lemma product_right (a b c : R) :
  (finite (Ry c) @@ finite (Rx b)) ≫= (fun M => finite (Rz a) @@ M)
  = Ok (finite (rotation_entries a b c)).
Proof. run_arrays. run_finite. entries. all: ring. Qed.

End Geometry.

(** ** The rotation matrix *)

Lemma deg_0 : deg 0 = 0.
Proof. unfold deg; ring. Qed.

Lemma deg_90 : deg 90 = PI / 2.
Proof. unfold deg; field. Qed.

Lemma deg_180 : deg 180 = PI.
Proof. unfold deg; field. Qed.

Lemma deg_270 : deg 270 = 3 * (PI / 2).
Proof. unfold deg; field. Qed.

(** C1. For all angles in degrees, [euler_to_rotation_matrix] (either
    variant) converts them to radians ([deg]) and returns the product
    (Rz(yaw) . Ry(roll)) . Rx(pitch) of the elementary rotations, taken in
    that order; the product has the entries [rotation_entries], and
    associating it the other way, Rz . (Ry . Rx), gives the same array. *)
Theorem euler_is_Rz_Ry_Rx (yaw_deg pitch_deg roll_deg : R) :
  let yaw := deg yaw_deg in
  let pitch := deg pitch_deg in
  let roll := deg roll_deg in
  Camparameters.euler_to_rotation_matrix (Fin yaw_deg) (Fin pitch_deg) (Fin roll_deg)
  = (finite (Rz yaw) @@ finite (Ry roll)) ≫= (fun M => M @@ finite (Rx pitch))
  ∧ GenerateCals.euler_to_rotation_matrix (Fin yaw_deg) (Fin pitch_deg) (Fin roll_deg)
    = (finite (Rz yaw) @@ finite (Ry roll)) ≫= (fun M => M @@ finite (Rx pitch))
  ∧ (finite (Rz yaw) @@ finite (Ry roll)) ≫= (fun M => M @@ finite (Rx pitch))
    = Ok (finite (rotation_entries yaw pitch roll))
  ∧ (finite (Ry roll) @@ finite (Rx pitch)) ≫= (fun M => finite (Rz yaw) @@ M)
    = Ok (finite (rotation_entries yaw pitch roll)).
Proof.
  intros yaw pitch roll. subst yaw pitch roll.
  rewrite product_left, product_right.
  repeat split; apply euler_finite.
Qed.

(** The order of the factors matters: with yaw 0 and pitch and roll 90
    degrees, Rz . Rx . Ry is not the array the scripts return. *)
Lemma other_order_differs :
  (finite (Rz (deg 0)) @@ finite (Rx (deg 90))) ≫= (fun M => M @@ finite (Ry (deg 90)))
  ≠ Camparameters.euler_to_rotation_matrix (of_int 0) (of_int 90) (of_int 90).
Proof.
  unfold of_int. rewrite euler_finite, deg_0, deg_90.
  run_arrays. run_finite.
  rewrite cos_0, sin_0, cos_PI2, sin_PI2.
  intros H. injection H; intros; lra.
Qed.

(** C2. For all angles the returned array R is orthonormal: det R = 1 and
    R^T R = I, hence also within the tolerance 1e-3; for yaw 0, 90, 180 and
    270 degrees with pitch 20 and roll 0 both hold within 1e-6. *)
Theorem euler_orthonormal :
  (∀ y p r : R, ∃ M,
      Camparameters.euler_to_rotation_matrix (Fin y) (Fin p) (Fin r) = Ok M
      ∧ det M = Ok (Fin 1)
      ∧ transpose M @@ M = Ok identity3
      ∧ orthonormal_within (Fin (1 / 1000)) M)
  ∧ Forall (fun yaw => ∃ M,
      Camparameters.euler_to_rotation_matrix (of_int yaw) (of_int 20) (of_int 0) = Ok M
      ∧ orthonormal_within (Fin (1 / 1000000)) M)
      [0; 90; 180; 270]%Z.
Proof.
  assert (Hall : ∀ (tol y p r : R), 0 < tol → ∃ M,
      Camparameters.euler_to_rotation_matrix (Fin y) (Fin p) (Fin r) = Ok M
      ∧ det M = Ok (Fin 1)
      ∧ transpose M @@ M = Ok identity3
      ∧ orthonormal_within (Fin tol) M).
  { intros tol y p r Htol. eexists. split; [apply euler_finite|].
    split; [apply det_rotation|]. split; [apply gram_rotation|].
    exists (Fin 1), identity3.
    split; [apply det_rotation|]. split; [apply within_self, Htol|].
    split; [apply gram_rotation|]. apply all_within_identity3, Htol. }
  split.
  - intros y p r. apply Hall. lra.
  - repeat constructor.
    all: match goal with
         | |- ∃ M, Camparameters.euler_to_rotation_matrix (of_int ?y) _ _ = _ ∧ _ =>
             destruct (Hall (1 / 1000000) (IZR y) 20 0 ltac:(lra))
               as (M & HM & _ & _ & Hort);
             exists M; split; [exact HM | exact Hort]
         end.
Qed.

(** C10. With all three angles zero the result is the identity, and a
    call that leaves out the roll is the call with roll 0; in both
    variants. *)
Theorem euler_zero_and_default_roll :
  Camparameters.euler_to_rotation_matrix (of_int 0) (of_int 0) (of_int 0) = Ok identity3
  ∧ GenerateCals.euler_to_rotation_matrix (of_int 0) (of_int 0) (of_int 0) = Ok identity3
  ∧ (∀ yaw pitch : pyfloat,
       Camparameters.euler_to_rotation_matrix_default yaw pitch
       = Camparameters.euler_to_rotation_matrix yaw pitch (of_int 0))
  ∧ (∀ yaw pitch : pyfloat,
       GenerateCals.euler_to_rotation_matrix_default yaw pitch
       = GenerateCals.euler_to_rotation_matrix yaw pitch (of_int 0)).
Proof.
  assert (H0 : Camparameters.euler_to_rotation_matrix (of_int 0) (of_int 0) (of_int 0)
               = Ok identity3).
  { unfold of_int. rewrite euler_finite, deg_0.
    run_arrays. rewrite cos_0, sin_0. entries. all: ring. }
  repeat split; try exact H0.
Qed.

(** ** The focal length *)

Lemma fdiv_fin (x y : R) : y ≠ 0 → fdiv (Fin x) (Fin y) = Fin (x / y).
Proof.
  intros Hy. unfold fdiv. destruct (Req_dec_T y 0); [contradiction | reflexivity].
Qed.

Lemma tan_fin (x : R) : cos x ≠ 0 → np.tan (Fin x) = Fin (tan x).
Proof.
  intros Hx. unfold np.tan. destruct (Req_dec_T (cos x) 0); [contradiction | reflexivity].
Qed.

Lemma within_fin_true (tol a b : R) :
  Rabs (a - b) < tol → within (Fin tol) (Fin a) (Fin b) = true.
Proof.
  intros H. cbv [within flt fabs fsub fadd fneg].
  destruct (Rlt_dec _ _) as [|Hn]; [reflexivity | exact (False_ind _ (Hn H))].
Qed.

Lemma within_fin_false (tol a b : R) :
  tol <= Rabs (a - b) → within (Fin tol) (Fin a) (Fin b) = false.
Proof.
  intros H. cbv [within flt fabs fsub fadd fneg].
  destruct (Rlt_dec _ _) as [Hlt|]; [| reflexivity].
  exfalso. unfold Rminus in H. lra.
Qed.

Lemma half_fov_range (fov : R) :
  0 < fov < 180 → 0 < deg fov / 2 < PI / 2.
Proof.
  intros [Hlo Hhi]. unfold deg. pose proof PI_RGT_0 as Hpi. split; nra.
Qed.

Lemma focal_length_finite (fov w : R) :
  0 < fov < 180 →
  Camparameters.fov_to_focal_length (Fin fov) (Fin w) = Fin (w / (2 * tan (deg fov / 2))).
Proof.
  intros Hfov. destruct (half_fov_range fov Hfov) as [Hlo Hhi].
  assert (Hcos : cos (deg fov / 2) ≠ 0).
  { apply Rgt_not_eq, cos_gt_0; lra. }
  assert (Htan : 0 < tan (deg fov / 2)) by (apply tan_gt_0; assumption).
  unfold Camparameters.fov_to_focal_length, np.radians, of_int.
  cbv [fmul]. fold (deg fov).
  rewrite fdiv_fin by lra. rewrite tan_fin by assumption.
  rewrite fdiv_fin by lra. reflexivity.
Qed.

Lemma sqrt3_bounds : 173205 / 100000 < sqrt 3 < 173206 / 100000.
Proof.
  pose proof (sqrt_pos 3) as H0.
  pose proof (sqrt_sqrt 3 ltac:(lra)) as Hsq.
  split; nra.
Qed.

(** The focal length of the built-in rig: 1280 / (2 tan 60°) = 640 / sqrt 3. *)
Lemma focal_length_120_1280 :
  Camparameters.fov_to_focal_length (of_int 120) (of_int 1280) = Fin (640 / sqrt 3).
Proof.
  unfold of_int. rewrite focal_length_finite by lra.
  replace (deg 120 / 2) with (PI / 3) by (unfold deg; field).
  rewrite tan_PI3. apply Fin_eq.
  pose proof sqrt3_bounds. field. lra.
Qed.

Lemma focal_value_bounds : 36950 / 100 < 640 / sqrt 3 < 36951 / 100.
Proof.
  pose proof sqrt3_bounds as [Hlo Hhi].
  assert (Hf : 640 / sqrt 3 * sqrt 3 = 640) by (field; lra).
  generalize dependent (640 / sqrt 3). intros f Hf.
  split; nra.
Qed.

(** C3, as amended.  For 0 < fov < 180 the focal length is
    width / (2 tan(fov/2)), the half angle in radians; for 120 degrees and
    1280 pixels it is 640 / sqrt 3, within 1e-2 of 369.50. *)
Theorem focal_length_formula (fov width : R) :
  0 < fov < 180 →
  Camparameters.fov_to_focal_length (Fin fov) (Fin width)
  = Fin (width / (2 * tan (deg fov / 2)))
  ∧ GenerateCals.fov_to_focal_length (Fin fov) (Fin width)
    = Fin (width / (2 * tan (deg fov / 2)))
  ∧ within (Fin (1 / 100))
      (Camparameters.fov_to_focal_length (of_int 120) (of_int 1280))
      (Fin (36950 / 100)) = true.
Proof.
  intros Hfov. split; [| split].
  - apply focal_length_finite, Hfov.
  - apply focal_length_finite, Hfov.
  - rewrite focal_length_120_1280. apply within_fin_true.
    pose proof focal_value_bounds. apply Rabs_def1; lra.
Qed.

Lemma focal_length_formula_witness :
  0 < 120 < 180
  ∧ Camparameters.fov_to_focal_length (Fin 120) (Fin 1280)
    = Fin (1280 / (2 * tan (deg 120 / 2))).
Proof.
  split; [lra |].
  apply (focal_length_formula 120 1280). lra.
Defined.

(** C3, as stated, fails: the focal length for 120 degrees and 1280 pixels
    is within 1e-2 of neither 369.55 nor 369.95. *)
Lemma focal_length_not_as_pinned :
  within (Fin (1 / 100))
    (Camparameters.fov_to_focal_length (of_int 120) (of_int 1280))
    (Fin (36955 / 100)) = false
  ∧ within (Fin (1 / 100))
      (Camparameters.fov_to_focal_length (of_int 120) (of_int 1280))
      (Fin (36995 / 100)) = false.
Proof.
  rewrite focal_length_120_1280.
  pose proof focal_value_bounds.
  split; apply within_fin_false; rewrite Rabs_left by lra; lra.
Qed.

(** ** Running the scripts *)

Ltac run_io :=
  lazy [mbind io_bind lift Camparameters.save_camera_yaml release print
        column map nth getitem getitem2 getcolumn ncols length Nat.ltb Nat.leb
        result_bind nth_error det laplace rectangular forallb andb Nat.eqb
        remove_at firstn skipn combine seq fst snd Nat.even cv2.write cv2.open_write
        cv2.filename cv2.nodes files stdout].

Lemma for_each_total {A} (body : A → io unit) (xs : list A) (w : world) :
  (∀ x w0, fst (body x w0) = Ok tt) →
  for_each xs body w = (Ok tt, fold_left (fun w0 x => snd (body x w0)) xs w).
Proof.
  intros Hbody. revert w. induction xs as [|x xs IH]; intros w; [reflexivity|].
  cbn [for_each fold_left]. unfold mbind, io_bind.
  specialize (Hbody x w). destruct (body x w) as [[[]|e] w1]; cbn in *.
  - apply IH.
  - discriminate.
Qed.

Lemma save_camera_yaml_run idx name Rot f cx cy ip port (w : world) :
  Camparameters.save_camera_yaml idx name Rot f cx cy ip port w
  = (Ok tt,
     {| files := <[camera_file_name idx :=
                     calibration_fields f cx cy Rot ++ metadata_fields name ip port]>
                   (files w);
        stdout := stdout w ++ [Saved (camera_file_name idx)] |}).
Proof. reflexivity. Qed.

(** One turn of the loop of [main]: the rotation is computed, the file is
    written, then the viewing direction and the determinant are printed. *)
Lemma main_step_run f wd ht idx name yaw pitch roll ip port (w : world) :
  ∃ Rot x y z d,
    Camparameters.euler_to_rotation_matrix yaw pitch roll = Ok Rot
    ∧ det Rot = Ok d
    ∧ Camparameters.camera_step f wd ht (idx, name, yaw, pitch, roll, ip, port) w
      = (Ok tt,
         {| files := <[camera_file_name idx :=
                         calibration_fields f (fdiv wd (of_int 2)) (fdiv ht (of_int 2)) Rot
                         ++ metadata_fields name ip port]> (files w);
            stdout := stdout w ++ [Saved (camera_file_name idx);
                                   ViewingDirection x y z;
                                   DetLine d (det_mark d)] |}).
Proof.
  destruct (euler_shape yaw pitch roll)
    as (a & b & c & d0 & e & f0 & g & h & i & HR).
  eexists _, c, f0, i, _. split; [exact HR|]. split; [reflexivity|].
  unfold Camparameters.camera_step. rewrite HR. destruct w as [fs out].
  run_io. rewrite <- !app_assoc. reflexivity.
Qed.

(** One turn of the loop of the second script: no metadata, no check. *)
Lemma script_step_run f wd ht idx name yaw pitch roll ip port (w : world) :
  ∃ Rot x y z,
    GenerateCals.euler_to_rotation_matrix yaw pitch roll = Ok Rot
    ∧ GenerateCals.camera_step f wd ht (idx, name, yaw, pitch, roll, ip, port) w
      = (Ok tt,
         {| files := <[camera_file_name idx :=
                         calibration_fields f (fdiv wd (of_int 2)) (fdiv ht (of_int 2)) Rot]>
                       (files w);
            stdout := stdout w ++ Saved (camera_file_name idx) :: rotation_rows Rot
                                   ++ [ViewingDirection x y z] |}).
Proof.
  destruct (euler_shape yaw pitch roll)
    as (a & b & c & d0 & e & f0 & g & h & i & HR).
  exists [[a; b; c]; [d0; e; f0]; [g; h; i]], c, f0, i.
  split; [exact HR|].
  unfold GenerateCals.camera_step.
  change (GenerateCals.euler_to_rotation_matrix yaw pitch roll)
    with (Camparameters.euler_to_rotation_matrix yaw pitch roll).
  rewrite HR. destruct w as [fs out].
  run_io. rewrite <- !app_assoc. reflexivity.
Qed.

(** What a loop over the cameras leaves behind, from what one turn does. *)
Section Loop.

Variable step : world → camera → world.
Variable good : cv2.document → Prop.
Variable printed : camera → line → Prop.

Hypothesis step_files : ∀ w c, ∃ doc,
  good doc ∧ files (step w c) = <[camera_file_name (camera_idx c) := doc]> (files w).

Hypothesis step_stdout : ∀ w c, ∃ ls,
  stdout (step w c) = stdout w ++ ls ∧ (∀ l, printed c l → l ∈ ls).

Lemma loop_keeps_good (cams : list camera) (w : world) (k : string) :
  (∃ doc, good doc ∧ files w !! k = Some doc) →
  ∃ doc, good doc ∧ files (fold_left step cams w) !! k = Some doc.
Proof.
  revert w. induction cams as [|c cams IH]; intros w Hk; [exact Hk|].
  cbn [fold_left]. apply IH.
  destruct (step_files w c) as (doc & Hgood & ->).
  destruct (decide (camera_file_name (camera_idx c) = k)) as [<-|Hne].
  - exists doc. split; [exact Hgood | apply lookup_insert_eq].
  - rewrite lookup_insert_ne by exact Hne. exact Hk.
Qed.

Lemma loop_writes_every_file (cams : list camera) (w : world) (c : camera) :
  c ∈ cams →
  ∃ doc, good doc
         ∧ files (fold_left step cams w) !! camera_file_name (camera_idx c) = Some doc.
Proof.
  revert w. induction cams as [|c0 cams IH]; intros w Hin.
  - inversion Hin.
  - cbn [fold_left]. apply elem_of_cons in Hin as [->|Hin].
    + apply loop_keeps_good.
      destruct (step_files w c0) as (doc & Hgood & ->).
      exists doc. split; [exact Hgood | apply lookup_insert_eq].
    + apply IH, Hin.
Qed.

Lemma loop_keeps_stdout (cams : list camera) (w : world) (l : line) :
  l ∈ stdout w → l ∈ stdout (fold_left step cams w).
Proof.
  revert w. induction cams as [|c cams IH]; intros w Hl; [exact Hl|].
  cbn [fold_left]. apply IH.
  destruct (step_stdout w c) as (ls & -> & _).
  apply elem_of_app. left. exact Hl.
Qed.

Lemma loop_prints_every_line (cams : list camera) (w : world) (c : camera) (l : line) :
  c ∈ cams → printed c l → l ∈ stdout (fold_left step cams w).
Proof.
  revert w. induction cams as [|c0 cams IH]; intros w Hin Hl.
  - inversion Hin.
  - cbn [fold_left]. apply elem_of_cons in Hin as [->|Hin].
    + apply loop_keeps_stdout.
      destruct (step_stdout w c0) as (ls & -> & Hls).
      apply elem_of_app. right. apply Hls, Hl.
    + apply IH; assumption.
Qed.

End Loop.

Lemma main_step_ok f wd ht cam (w : world) :
  fst (Camparameters.camera_step f wd ht cam w) = Ok tt.
Proof.
  destruct cam as [[[[[[idx name] yaw] pitch] roll] ip] port].
  destruct (main_step_run f wd ht idx name yaw pitch roll ip port w)
    as (Rot & x & y & z & d & _ & _ & ->).
  reflexivity.
Qed.

Lemma script_step_ok f wd ht cam (w : world) :
  fst (GenerateCals.camera_step f wd ht cam w) = Ok tt.
Proof.
  destruct cam as [[[[[[idx name] yaw] pitch] roll] ip] port].
  destruct (script_step_run f wd ht idx name yaw pitch roll ip port w)
    as (Rot & x & y & z & _ & ->).
  reflexivity.
Qed.

(** [main] never raises: it runs the loop to its end and then writes the
    crop file. *)
Lemma main_with_run (c : config) (w : world) :
  Camparameters.main_with c w
  = (Ok tt, with_crop (fold_left (main_step c) (cameras c) (with_focal_line c w))).
Proof.
  unfold Camparameters.main_with.
  unfold mbind at 1 2. unfold io_bind at 1 2. cbn [print].
  rewrite for_each_total by (intros; apply main_step_ok).
  reflexivity.
Qed.

Lemma script_with_run (c : config) (w : world) :
  GenerateCals.script_with c w
  = (Ok tt, with_crop (fold_left (script_step c) (cameras c) (with_focal_line c w))).
Proof.
  unfold GenerateCals.script_with.
  unfold mbind at 1 2. unfold io_bind at 1 2. cbn [print].
  rewrite for_each_total by (intros; apply script_step_ok).
  reflexivity.
Qed.

Lemma main_step_files (c : config) (w : world) (cam : camera) :
  ∃ doc, map fst doc = seven_keys
         ∧ files (main_step c w cam)
           = <[camera_file_name (camera_idx cam) := doc]> (files w).
Proof.
  destruct cam as [[[[[[idx name] yaw] pitch] roll] ip] port].
  unfold main_step.
  destruct (main_step_run
              (Camparameters.fov_to_focal_length (horizontal_fov c) (image_width c))
              (image_width c) (image_height c) idx name yaw pitch roll ip port w)
    as (Rot & x & y & z & d & _ & _ & ->).
  eexists. split; [| reflexivity]. reflexivity.
Qed.

Lemma main_step_stdout (c : config) (w : world) (cam : camera) :
  ∃ ls, stdout (main_step c w cam) = stdout w ++ ls
        ∧ ∀ l, det_line_of cam l → l ∈ ls.
Proof.
  destruct cam as [[[[[[idx name] yaw] pitch] roll] ip] port].
  unfold main_step.
  destruct (main_step_run
              (Camparameters.fov_to_focal_length (horizontal_fov c) (image_width c))
              (image_width c) (image_height c) idx name yaw pitch roll ip port w)
    as (Rot & x & y & z & d & HR & Hd & ->).
  eexists. split; [reflexivity|].
  intros l (Rot' & d' & HR' & Hd' & ->).
  rewrite HR in HR'. injection HR' as <-.
  rewrite Hd in Hd'. injection Hd' as <-.
  unfold det_mark. set_solver.
Qed.

Lemma script_step_files (c : config) (w : world) (cam : camera) :
  ∃ doc, map fst doc = four_keys
         ∧ files (script_step c w cam)
           = <[camera_file_name (camera_idx cam) := doc]> (files w).
Proof.
  destruct cam as [[[[[[idx name] yaw] pitch] roll] ip] port].
  unfold script_step.
  destruct (script_step_run
              (GenerateCals.fov_to_focal_length (horizontal_fov c) (image_width c))
              (image_width c) (image_height c) idx name yaw pitch roll ip port w)
    as (Rot & x & y & z & _ & ->).
  eexists. split; [| reflexivity]. reflexivity.
Qed.

Lemma camera_file_is_not_crop (idx : Z) :
  camera_file_name idx ≠ "corner_warppts.yaml".
Proof. unfold camera_file_name. cbn. discriminate. Qed.

Lemma with_crop_camera_file (w : world) (idx : Z) :
  files (with_crop w) !! camera_file_name idx = files w !! camera_file_name idx.
Proof.
  unfold with_crop. cbn [files].
  apply lookup_insert_ne. apply not_eq_sym, camera_file_is_not_crop.
Qed.

Lemma rotation_rows_no_det_line (Rot : matrix) :
  Forall (fun l => is_det_line l = false) (rotation_rows Rot).
Proof.
  unfold rotation_rows. induction Rot as [|r Rot IH]; [constructor|].
  cbn [flat_map]. apply Forall_app. split; [| exact IH].
  destruct r as [|a [|b [|c [|]]]]; repeat constructor.
Qed.

Lemma script_loop_no_det_line (c : config) (cams : list camera) (w : world) :
  Forall (fun l => is_det_line l = false) (stdout w) →
  Forall (fun l => is_det_line l = false) (stdout (fold_left (script_step c) cams w)).
Proof.
  revert w. induction cams as [|cam cams IH]; intros w Hw; [exact Hw|].
  cbn [fold_left]. apply IH.
  destruct cam as [[[[[[idx name] yaw] pitch] roll] ip] port].
  unfold script_step.
  destruct (script_step_run
              (GenerateCals.fov_to_focal_length (horizontal_fov c) (image_width c))
              (image_width c) (image_height c) idx name yaw pitch roll ip port w)
    as (Rot & x & y & z & _ & ->).
  cbn [snd stdout]. apply Forall_app. split; [exact Hw|].
  constructor; [reflexivity|].
  apply Forall_app. split; [apply rotation_rows_no_det_line | repeat constructor].
Qed.

Lemma main_with_complete (c : config) (w : world) :
  ∃ w',
    Camparameters.main_with c w = (Ok tt, w')
    ∧ files w' !! "corner_warppts.yaml" = Some crop_document
    ∧ Forall (fun cam => ∃ doc,
                map fst doc = seven_keys
                ∧ files w' !! camera_file_name (camera_idx cam) = Some doc)
        (cameras c)
    ∧ Forall (fun cam => ∀ l, det_line_of cam l → l ∈ stdout w') (cameras c).
Proof.
  eexists. split; [apply main_with_run|].
  split; [apply lookup_insert_eq|]. split.
  - apply Forall_forall. intros cam Hcam.
    rewrite with_crop_camera_file.
    apply (loop_writes_every_file (main_step c) _ (main_step_files c)), Hcam.
  - apply Forall_forall. intros cam Hcam l Hl.
    unfold with_crop. cbn [stdout]. apply elem_of_app. left.
    apply (loop_prints_every_line (main_step c) det_line_of (main_step_stdout c)
             _ _ cam); assumption.
Qed.

Lemma script_with_complete (c : config) (w : world) :
  ∃ w',
    GenerateCals.script_with c w = (Ok tt, w')
    ∧ files w' !! "corner_warppts.yaml" = Some crop_document
    ∧ Forall (fun cam => ∃ doc,
                map fst doc = four_keys
                ∧ files w' !! camera_file_name (camera_idx cam) = Some doc)
        (cameras c).
Proof.
  eexists. split; [apply script_with_run|].
  split; [apply lookup_insert_eq|].
  apply Forall_forall. intros cam Hcam.
  rewrite with_crop_camera_file.
  apply (loop_writes_every_file (script_step c) _ (script_step_files c)), Hcam.
Qed.

(** ** The files of a run *)

(** C5, as amended.  [save_camera_yaml] of the first variant writes one
    file, named Camparam<idx>.yaml, with exactly the seven keyed fields
    FocalLength (float), Intrisic (3x3), Rotation (3x3), Translation (the
    3x1 zero vector), CameraName, CameraIP (strings) and CameraPort
    (integer); the loop of the second variant writes a file of the same
    name with the first four of these fields only. *)
Theorem camera_file_fields :
  (∀ idx name Rot f cx cy ip port (w : world),
     fst (Camparameters.save_camera_yaml idx name Rot f cx cy ip port w) = Ok tt
     ∧ files (snd (Camparameters.save_camera_yaml idx name Rot f cx cy ip port w))
       = <["Camparam" +:+ str idx +:+ ".yaml" :=
             [ ("FocalLength", cv2.Real f);
               ("Intrisic", cv2.Mat np.float32
                              [ [f; Fin 0; cx]; [Fin 0; f; cy]; [Fin 0; Fin 0; Fin 1] ]);
               ("Rotation", cv2.Mat np.float32 Rot);
               ("Translation", cv2.Mat np.float64 [[Fin 0]; [Fin 0]; [Fin 0]]);
               ("CameraName", cv2.Str name);
               ("CameraIP", cv2.Str ip);
               ("CameraPort", cv2.Int port) ]]> (files w))
  ∧ (∀ f wd ht idx name yaw pitch roll ip port (w : world),
       ∃ Rot,
         GenerateCals.euler_to_rotation_matrix yaw pitch roll = Ok Rot
         ∧ fst (GenerateCals.camera_step f wd ht (idx, name, yaw, pitch, roll, ip, port) w)
           = Ok tt
         ∧ files (snd (GenerateCals.camera_step f wd ht
                         (idx, name, yaw, pitch, roll, ip, port) w))
           = <["Camparam" +:+ str idx +:+ ".yaml" :=
                 [ ("FocalLength", cv2.Real f);
                   ("Intrisic", cv2.Mat np.float32
                                  [ [f; Fin 0; fdiv wd (of_int 2)];
                                    [Fin 0; f; fdiv ht (of_int 2)];
                                    [Fin 0; Fin 0; Fin 1] ]);
                   ("Rotation", cv2.Mat np.float32 Rot);
                   ("Translation", cv2.Mat np.float64 [[Fin 0]; [Fin 0]; [Fin 0]]) ]]>
               (files w)).
Proof.
  split.
  - intros. rewrite save_camera_yaml_run. split; reflexivity.
  - intros.
    destruct (script_step_run f wd ht idx name yaw pitch roll ip port w)
      as (Rot & x & y & z & HR & ->).
    exists Rot. repeat split. exact HR.
Qed.

(** C5, as stated, fails for the second variant: the file it writes for
    camera 0 of the built-in rig has the four calibration fields and none
    of CameraName, CameraIP, CameraPort. *)
Lemma script_file_has_no_metadata :
  ∃ w' doc,
    GenerateCals.script empty_world = (Ok tt, w')
    ∧ files w' !! "Camparam0.yaml" = Some doc
    ∧ map fst doc = ["FocalLength"; "Intrisic"; "Rotation"; "Translation"]
    ∧ Forall (fun k => k ∉ map fst doc) ["CameraName"; "CameraIP"; "CameraPort"].
Proof.
  destruct (script_with_complete configuration empty_world)
    as (w' & Hrun & _ & Hfiles).
  cbn [cameras configuration] in Hfiles.
  apply Forall_cons in Hfiles as [(doc & Hkeys & Hdoc) _].
  exists w', doc. split; [exact Hrun|]. split; [exact Hdoc|].
  split; [exact Hkeys|].
  rewrite Hkeys. unfold four_keys.
  repeat constructor.
  all: rewrite !elem_of_cons, elem_of_nil.
  all: intros H; repeat destruct H as [H|H]; try discriminate H; exact H.
Qed.

(** C8.  Whatever the rig and whatever was there before, both scripts
    leave the crop file with the resolution (1920, 1080) and the four
    corners of the full canvas, tl = (0,0), tr = (1920,0), bl = (0,1080),
    br = (1920,1080), as 32-bit integer pairs. *)
Theorem crop_file_is_full_canvas (c : config) (w : world) :
  files (snd (Camparameters.main_with c w)) !! "corner_warppts.yaml"
  = Some [ ("res_size", cv2.IntArray np.int32 [1920%Z; 1080%Z]);
           ("tl", cv2.IntArray np.int32 [0%Z; 0%Z]);
           ("tr", cv2.IntArray np.int32 [1920%Z; 0%Z]);
           ("bl", cv2.IntArray np.int32 [0%Z; 1080%Z]);
           ("br", cv2.IntArray np.int32 [1920%Z; 1080%Z]) ]
  ∧ files (snd (GenerateCals.script_with c w)) !! "corner_warppts.yaml"
    = Some [ ("res_size", cv2.IntArray np.int32 [1920%Z; 1080%Z]);
             ("tl", cv2.IntArray np.int32 [0%Z; 0%Z]);
             ("tr", cv2.IntArray np.int32 [1920%Z; 0%Z]);
             ("bl", cv2.IntArray np.int32 [0%Z; 1080%Z]);
             ("br", cv2.IntArray np.int32 [1920%Z; 1080%Z]) ].
Proof.
  rewrite main_with_run, script_with_run. unfold with_crop. cbn [snd files].
  split; apply lookup_insert_eq.
Qed.

(** ** Errors *)

(** C6, as amended.  No field of view is rejected.  For every value of
    [horizontal_fov], inside or outside (0, 180) and also 0, 180, infinite
    or NaN, and every rig, neither script raises: each runs to its end,
    having written the file of every camera and the crop file. *)
Theorem no_field_of_view_is_rejected (fov : pyfloat) (c : config) (w : world) :
  (∃ w',
     Camparameters.main_with (with_fov fov c) w = (Ok tt, w')
     ∧ Forall (fun cam => is_Some (files w' !! camera_file_name (camera_idx cam)))
         (cameras c)
     ∧ is_Some (files w' !! "corner_warppts.yaml"))
  ∧ (∃ w',
       GenerateCals.script_with (with_fov fov c) w = (Ok tt, w')
       ∧ Forall (fun cam => is_Some (files w' !! camera_file_name (camera_idx cam)))
           (cameras c)
       ∧ is_Some (files w' !! "corner_warppts.yaml")).
Proof.
  split.
  - destruct (main_with_complete (with_fov fov c) w) as (w' & Hrun & Hcrop & Hfiles & _).
    exists w'. split; [exact Hrun|]. split; [| rewrite Hcrop; eauto].
    cbn [cameras with_fov] in Hfiles.
    eapply Forall_impl; [exact Hfiles|].
    intros cam (doc & _ & ->). eauto.
  - destruct (script_with_complete (with_fov fov c) w) as (w' & Hrun & Hcrop & Hfiles).
    exists w'. split; [exact Hrun|]. split; [| rewrite Hcrop; eauto].
    cbn [cameras with_fov] in Hfiles.
    eapply Forall_impl; [exact Hfiles|].
    intros cam (doc & _ & ->). eauto.
Qed.

Lemma focal_length_fov_0 :
  Camparameters.fov_to_focal_length (of_int 0) (of_int 1280) = Inf false.
Proof.
  unfold Camparameters.fov_to_focal_length, np.radians, of_int. cbv [fmul].
  rewrite fdiv_fin by lra.
  replace (0 * (PI / 180) / 2) with 0 by field.
  rewrite tan_fin by (rewrite cos_0; lra).
  rewrite tan_0. unfold fdiv.
  destruct (Req_dec_T (2 * 0) 0) as [_|Hne]; [| exfalso; apply Hne; ring].
  destruct (Req_dec_T 1280 0) as [Heq|_]; [exfalso; lra|].
  unfold Rneg. destruct (Rlt_dec 1280 0); [exfalso; lra | reflexivity].
Qed.

(** C6, as stated, fails: with a field of view of 0 or of 180 degrees the
    built-in rig is processed without any error, all four camera files are
    written; at 0 the focal length is an infinity. *)
Lemma field_of_view_0_and_180_accepted :
  Forall (fun fov =>
            fst (Camparameters.main_with (with_fov (of_int fov) configuration) empty_world)
            = Ok tt
            ∧ Forall (fun name =>
                        is_Some (files (snd (Camparameters.main_with
                                               (with_fov (of_int fov) configuration)
                                               empty_world)) !! name))
                ["Camparam0.yaml"; "Camparam1.yaml"; "Camparam2.yaml"; "Camparam3.yaml"])
    [0; 180]%Z
  ∧ Camparameters.fov_to_focal_length (of_int 0) (of_int 1280) = Inf false.
Proof.
  split; [| exact focal_length_fov_0].
  repeat constructor.
  all: match goal with
       | |- context [with_fov ?f configuration] =>
           destruct (main_with_complete (with_fov f configuration) empty_world)
             as (w' & -> & _ & Hfiles & _)
       end.
  all: try reflexivity.
  all: cbn [snd cameras configuration with_fov] in *.
  all: repeat match goal with
         | H : Forall _ (_ :: _) |- _ =>
             apply Forall_cons in H as [(? & _ & ?) H]
         end.
  all: match goal with
       | H : _ !! _ = Some ?doc |- is_Some _ => exists doc; exact H
       end.
Qed.

Lemma euler_nan_yaw :
  ∃ Rot,
    Camparameters.euler_to_rotation_matrix NaN (of_int 20) (of_int 0) = Ok Rot
    ∧ det Rot = Ok NaN.
Proof.
  eexists. split.
  - unfold Camparameters.euler_to_rotation_matrix.
    run_finite. run_arrays. run_finite. reflexivity.
  - reflexivity.
Qed.

(** C7, as amended.  The determinant check does not stop anything.  For
    every rig, one turn of the loop of [main] writes the camera's file and
    returns normally whatever the determinant is; the whole run completes,
    with the file of every camera and the crop file written; and for each
    camera the determinant line is printed, marked "✗ ERROR" exactly when
    |det - 1| < 1e-3 does not hold.  The second script prints no
    determinant line at all. *)
Theorem determinant_check_only_reports (c : config) (w : world) :
  (∀ f wd ht cam,
     fst (Camparameters.camera_step f wd ht cam w) = Ok tt
     ∧ is_Some (files (snd (Camparameters.camera_step f wd ht cam w))
                !! camera_file_name (camera_idx cam)))
  ∧ (∃ w',
       Camparameters.main_with c w = (Ok tt, w')
       ∧ is_Some (files w' !! "corner_warppts.yaml")
       ∧ Forall (fun cam =>
                   is_Some (files w' !! camera_file_name (camera_idx cam))
                   ∧ ∃ Rot d,
                       (let '(yaw, pitch, roll) := camera_angles cam in
                        Camparameters.euler_to_rotation_matrix yaw pitch roll = Ok Rot)
                       ∧ det Rot = Ok d
                       ∧ DetLine d (if within (Fin (1 / 1000)) d (Fin 1)
                                    then "✓" else "✗ ERROR") ∈ stdout w')
           (cameras c))
  ∧ Forall (fun l => is_det_line l = false)
      (stdout (snd (GenerateCals.script_with c empty_world))).
Proof.
  split; [| split].
  - intros f wd ht cam. split; [apply main_step_ok|].
    destruct cam as [[[[[[idx name] yaw] pitch] roll] ip] port].
    destruct (main_step_run f wd ht idx name yaw pitch roll ip port w)
      as (Rot & x & y & z & d & _ & _ & ->).
    cbn [snd files camera_idx]. rewrite lookup_insert_eq. eauto.
  - destruct (main_with_complete c w) as (w' & Hrun & Hcrop & Hfiles & Hout).
    exists w'. split; [exact Hrun|]. split; [rewrite Hcrop; eauto|].
    apply Forall_forall. intros cam Hcam.
    rewrite Forall_forall in Hfiles, Hout.
    destruct (Hfiles cam Hcam) as (doc & _ & Hdoc).
    split; [rewrite Hdoc; eauto|].
    specialize (Hout cam Hcam). unfold det_line_of in Hout.
    destruct cam as [[[[[[idx name] yaw] pitch] roll] ip] port].
    cbn [camera_angles] in *.
    destruct (main_step_run (Fin 0) (Fin 0) (Fin 0) idx name yaw pitch roll ip port w)
      as (Rot & _ & _ & _ & d & HR & Hd & _).
    exists Rot, d. split; [exact HR|]. split; [exact Hd|].
    apply Hout. exists Rot, d. auto.
  - rewrite script_with_run. unfold with_crop. cbn [snd stdout].
    apply Forall_app. split; [| repeat constructor].
    apply script_loop_no_det_line. repeat constructor.
Qed.

(** C7, as stated, fails: in a rig whose first camera has a NaN yaw the
    rotation of that camera has determinant NaN, the check fails and the
    line is marked "✗ ERROR", yet the run completes without an exception
    and the file of that camera, the file of the next camera and the crop
    file are all written. *)
Lemma failed_check_does_not_abort :
  ∃ w' Rot,
    Camparameters.main_with nan_rig empty_world = (Ok tt, w')
    ∧ Camparameters.euler_to_rotation_matrix NaN (of_int 20) (of_int 0) = Ok Rot
    ∧ det Rot = Ok NaN
    ∧ within (Fin (1 / 1000)) NaN (Fin 1) = false
    ∧ DetLine NaN "✗ ERROR" ∈ stdout w'
    ∧ is_Some (files w' !! "Camparam0.yaml")
    ∧ is_Some (files w' !! "Camparam1.yaml")
    ∧ is_Some (files w' !! "corner_warppts.yaml").
Proof.
  destruct (main_with_complete nan_rig empty_world)
    as (w' & Hrun & Hcrop & Hfiles & Hout).
  destruct euler_nan_yaw as (Rot & HR & Hd).
  exists w', Rot.
  cbn [cameras nan_rig] in Hfiles, Hout.
  apply Forall_cons in Hfiles as [(doc0 & _ & H0) Hfiles].
  apply Forall_cons in Hfiles as [(doc1 & _ & H1) _].
  apply Forall_cons in Hout as [Hline _].
  repeat split; try assumption.
  - apply Hline. unfold det_line_of. cbn [camera_angles].
    exists Rot, NaN. auto.
  - exists doc0. exact H0.
  - exists doc1. exact H1.
  - rewrite Hcrop. eauto.
Qed.

(** ** The two variants *)

Lemma strip_camera_document f cx cy Rot name ip port :
  strip_metadata (calibration_fields f cx cy Rot ++ metadata_fields name ip port)
  = calibration_fields f cx cy Rot.
Proof. reflexivity. Qed.

Lemma steps_agree (c : config) (cam : camera) (w1 w2 : world) :
  files w2 = strip_metadata <$> files w1 →
  files (script_step c w2 cam) = strip_metadata <$> files (main_step c w1 cam).
Proof.
  intros Hw.
  destruct cam as [[[[[[idx name] yaw] pitch] roll] ip] port].
  unfold script_step, main_step.
  destruct (main_step_run
              (Camparameters.fov_to_focal_length (horizontal_fov c) (image_width c))
              (image_width c) (image_height c) idx name yaw pitch roll ip port w1)
    as (Rot & x & y & z & d & HR & _ & ->).
  destruct (script_step_run
              (GenerateCals.fov_to_focal_length (horizontal_fov c) (image_width c))
              (image_width c) (image_height c) idx name yaw pitch roll ip port w2)
    as (Rot' & x' & y' & z' & HR' & ->).
  change (GenerateCals.euler_to_rotation_matrix yaw pitch roll)
    with (Camparameters.euler_to_rotation_matrix yaw pitch roll) in HR'.
  rewrite HR in HR'. injection HR' as <-.
  cbn [snd files]. rewrite fmap_insert, strip_camera_document, Hw.
  reflexivity.
Qed.

Lemma loops_agree (c : config) (cams : list camera) (w1 w2 : world) :
  files w2 = strip_metadata <$> files w1 →
  files (fold_left (script_step c) cams w2)
  = strip_metadata <$> files (fold_left (main_step c) cams w1).
Proof.
  revert w1 w2. induction cams as [|cam cams IH]; intros w1 w2 Hw; [exact Hw|].
  cbn [fold_left]. apply IH, steps_agree, Hw.
Qed.

(** C9.  The two variants compute the same rotation matrix and the same
    focal length on every input, and for every rig, the built-in one in
    particular, they write the same files with the same calibration
    content: each file of the second script is the file of that name of
    [main] without the three metadata fields (CameraName, CameraIP,
    CameraPort) that only [main] adds, and the crop files are equal. *)
Theorem variants_agree :
  (∀ yaw pitch roll : pyfloat,
     Camparameters.euler_to_rotation_matrix yaw pitch roll
     = GenerateCals.euler_to_rotation_matrix yaw pitch roll)
  ∧ (∀ fov width : pyfloat,
       Camparameters.fov_to_focal_length fov width
       = GenerateCals.fov_to_focal_length fov width)
  ∧ (∀ c : config,
       files (snd (GenerateCals.script_with c empty_world))
       = strip_metadata <$> files (snd (Camparameters.main_with c empty_world)))
  ∧ files (snd (GenerateCals.script empty_world))
    = strip_metadata <$> files (snd (Camparameters.main empty_world)).
Proof.
  assert (Hall : ∀ c : config,
             files (snd (GenerateCals.script_with c empty_world))
             = strip_metadata <$> files (snd (Camparameters.main_with c empty_world))).
  { intros c. rewrite main_with_run, script_with_run.
    unfold with_crop. cbn [snd files].
    rewrite fmap_insert. f_equal.
    apply loops_agree. cbn [files empty_world with_focal_line].
    rewrite fmap_empty. reflexivity. }
  split; [reflexivity|]. split; [reflexivity|]. split; [exact Hall|].
  apply Hall.
Qed.

(** ** The built-in rig *)

Lemma half_of_int (n m : Z) : IZR n = 2 * IZR m → fdiv (of_int n) (of_int 2) = Fin (IZR m).
Proof.
  intros H. unfold of_int. rewrite fdiv_fin by lra. apply Fin_eq. lra.
Qed.

Lemma builtin_step (yaw idx : Z) (name ip : string) (port : Z) (w : world) :
  files (main_step configuration w
           (idx, name, of_int yaw, of_int 20, of_int 0, ip, port))
  = <[camera_file_name idx := builtin_record (IZR yaw) name ip port]> (files w).
Proof.
  unfold main_step.
  destruct (main_step_run
              (Camparameters.fov_to_focal_length
                 (horizontal_fov configuration) (image_width configuration))
              (image_width configuration) (image_height configuration)
              idx name (of_int yaw) (of_int 20) (of_int 0) ip port w)
    as (Rot & x & y & z & d & HR & _ & ->).
  unfold of_int in HR. rewrite euler_finite in HR. injection HR as <-.
  cbn [snd files horizontal_fov image_width image_height configuration].
  rewrite focal_length_120_1280.
  rewrite (half_of_int 1280 640), (half_of_int 800 400) by lra.
  reflexivity.
Qed.

Lemma main_files :
  files (snd (Camparameters.main empty_world))
  = <["corner_warppts.yaml" := crop_document]>
      (<["Camparam3.yaml" := builtin_record 270 "Right" "192.168.45.13" 5023]>
         (<["Camparam2.yaml" := builtin_record 180 "Rear" "192.168.45.12" 5022]>
            (<["Camparam1.yaml" := builtin_record 90 "Left" "192.168.45.11" 5021]>
               (<["Camparam0.yaml" := builtin_record 0 "Front" "192.168.45.10" 5020]>
                  ∅)))).
Proof.
  unfold Camparameters.main. rewrite main_with_run.
  unfold with_crop. cbn [snd files]. f_equal.
  cbn [cameras configuration fold_left].
  rewrite !builtin_step. reflexivity.
Qed.

Lemma yaw_factor (a b c : R) :
  finite (Rz a) @@ finite (rotation_entries 0 b c)
  = Ok (finite (rotation_entries a b c)).
Proof.
  run_arrays. run_finite. rewrite cos_0, sin_0. entries. all: ring.
Qed.

Lemma builtin_rotations_distinct :
  NoDup (map (fun yaw => rotation_entries (deg yaw) (deg 20) (deg 0))
           [0; 90; 180; 270]).
Proof.
  cbn [map]. rewrite deg_0, deg_90, deg_180, deg_270.
  unfold rotation_entries.
  rewrite cos_0, sin_0, cos_PI2, sin_PI2, cos_PI, sin_PI, cos_3PI2, sin_3PI2.
  repeat constructor.
  all: rewrite ?elem_of_cons, elem_of_nil.
  all: intros H.
  all: repeat match goal with
         | H : _ ∨ _ |- _ => destruct H as [H|H]
         | H : False |- _ => destruct H
         | H : _ :: _ = _ :: _ |- _ => injection H as H ?
         end.
  all: lra.
Qed.

Lemma main_result : ∃ w', Camparameters.main empty_world = (Ok tt, w').
Proof. eexists. unfold Camparameters.main. apply main_with_run. Qed.

Ltac lookup_file :=
  rewrite main_files;
  repeat (rewrite lookup_insert_ne by (let H := fresh in intros H; discriminate H));
  apply lookup_insert_eq.

(** C4, as amended.  For the built-in rig (1280x800, field of view 120,
    pitch 20, cameras Front/Left/Rear/Right at yaw 0/90/180/270) [main]
    completes and leaves exactly the four camera files and the crop file.
    The four camera files carry the same focal length 640 / sqrt 3, which
    is within 1e-2 of 369.50, and the same intrinsic matrix
    [[f,0,640],[0,f,400],[0,0,1]] (see [builtin_record]); their rotation
    matrices are pairwise distinct, and each is Rz(yaw) times the rotation
    of the camera at yaw 0. *)
Theorem builtin_rig_records :
  ∃ w',
    Camparameters.main empty_world = (Ok tt, w')
    ∧ dom (files w')
      = ({[ "Camparam0.yaml"; "Camparam1.yaml"; "Camparam2.yaml"; "Camparam3.yaml";
            "corner_warppts.yaml" ]} : gset string)
    ∧ files w' !! "Camparam0.yaml"
      = Some (builtin_record 0 "Front" "192.168.45.10" 5020)
    ∧ files w' !! "Camparam1.yaml"
      = Some (builtin_record 90 "Left" "192.168.45.11" 5021)
    ∧ files w' !! "Camparam2.yaml"
      = Some (builtin_record 180 "Rear" "192.168.45.12" 5022)
    ∧ files w' !! "Camparam3.yaml"
      = Some (builtin_record 270 "Right" "192.168.45.13" 5023)
    ∧ within (Fin (1 / 100)) (Fin (640 / sqrt 3)) (Fin (36950 / 100)) = true
    ∧ NoDup (map (fun yaw => rotation_entries (deg yaw) (deg 20) (deg 0))
               [0; 90; 180; 270])
    ∧ Forall (fun yaw =>
                finite (Rz (deg yaw)) @@ finite (rotation_entries (deg 0) (deg 20) (deg 0))
                = Ok (finite (rotation_entries (deg yaw) (deg 20) (deg 0))))
        [0; 90; 180; 270].
Proof.
  destruct main_result as (w' & Hrun).
  exists w'. split; [exact Hrun|].
  assert (Hw : w' = snd (Camparameters.main empty_world)) by (rewrite Hrun; reflexivity).
  subst w'.
  split.
  { rewrite main_files. rewrite !dom_insert_L, dom_empty_L. set_solver. }
  do 4 (split; [lookup_file|]).
  split.
  { apply within_fin_true. pose proof focal_value_bounds. apply Rabs_def1; lra. }
  split; [exact builtin_rotations_distinct|].
  rewrite deg_0. repeat constructor; apply yaw_factor.
Qed.

(** C4, as stated, fails in the value of the focal length: the one written
    for the built-in rig is not within 1e-2 of 369.55. *)
Lemma builtin_focal_length_is_not_369_55 :
  ∃ w' doc f,
    Camparameters.main empty_world = (Ok tt, w')
    ∧ files w' !! "Camparam0.yaml" = Some doc
    ∧ doc !! 0%nat = Some ("FocalLength", cv2.Real (Fin f))
    ∧ within (Fin (1 / 100)) (Fin f) (Fin (36955 / 100)) = false.
Proof.
  destruct main_result as (w' & Hrun).
  exists w', (builtin_record 0 "Front" "192.168.45.10" 5020), (640 / sqrt 3).
  split; [exact Hrun|].
  assert (Hw : w' = snd (Camparameters.main empty_world)) by (rewrite Hrun; reflexivity).
  subst w'.
  split; [lookup_file|]. split; [reflexivity|].
  pose proof focal_value_bounds.
  apply within_fin_false. rewrite Rabs_left by lra. lra.
Qed.

(** * Further properties of the code *)

(** ** Rotations: periods, composition, inverse *)

Lemma deg_plus (x y : R) : deg (x + y) = deg x + deg y.
Proof. unfold deg; ring. Qed.

Lemma deg_360 : deg 360 = 2 * PI.
Proof. unfold deg; field. Qed.

Lemma deg_opp (x : R) : deg (- x) = - deg x.
Proof. unfold deg; ring. Qed.

Lemma cos_turn (x : R) : cos (x + 2 * PI) = cos x.
Proof. rewrite cos_plus, cos_2PI, sin_2PI. ring. Qed.

Lemma sin_turn (x : R) : sin (x + 2 * PI) = sin x.
Proof. rewrite sin_plus, cos_2PI, sin_2PI. ring. Qed.

(** X1. A full turn changes nothing: adding 360 degrees to the yaw, to the
    pitch or to the roll gives the same rotation matrix. *)
Theorem euler_period_360 (yaw pitch roll : R) :
  Camparameters.euler_to_rotation_matrix (Fin (yaw + 360)) (Fin pitch) (Fin roll)
  = Camparameters.euler_to_rotation_matrix (Fin yaw) (Fin pitch) (Fin roll)
  ∧ Camparameters.euler_to_rotation_matrix (Fin yaw) (Fin (pitch + 360)) (Fin roll)
    = Camparameters.euler_to_rotation_matrix (Fin yaw) (Fin pitch) (Fin roll)
  ∧ Camparameters.euler_to_rotation_matrix (Fin yaw) (Fin pitch) (Fin (roll + 360))
    = Camparameters.euler_to_rotation_matrix (Fin yaw) (Fin pitch) (Fin roll).
Proof.
  rewrite !euler_finite, !deg_plus, deg_360.
  unfold rotation_entries. rewrite !cos_turn, !sin_turn.
  repeat split.
Qed.

(** X2. Yaws add up: the matrix for yaw [y1 + y2] is the rotation Rz(y1)
    applied after the matrix for yaw [y2], with the same pitch and roll. *)
Theorem euler_yaw_composes (y1 y2 pitch roll : R) :
  Camparameters.euler_to_rotation_matrix (Fin y2) (Fin pitch) (Fin roll)
    ≫= (fun M => finite (Rz (deg y1)) @@ M)
  = Camparameters.euler_to_rotation_matrix (Fin (y1 + y2)) (Fin pitch) (Fin roll).
Proof.
  rewrite !euler_finite, deg_plus.
  run_arrays. run_finite. rewrite cos_plus, sin_plus.
  entries. all: ring.
Qed.

Lemma rotation_times_transpose (a b c : R) :
  finite (rotation_entries a b c) @@ transpose (finite (rotation_entries a b c))
  = Ok identity3.
Proof.
  run_arrays. run_finite. entries.
  all: trig_names a; trig_names b; trig_names c; nsatz.
Qed.

Lemma reverse_product (a b c : R) :
  (finite (Rx (- b)) @@ finite (Ry (- c))) ≫= (fun N => N @@ finite (Rz (- a)))
  = Ok (transpose (finite (rotation_entries a b c))).
Proof.
  run_arrays. run_finite. rewrite !cos_neg, !sin_neg. entries. all: ring.
Qed.

(** X3. The transpose of the returned matrix is the rotation back: it is
    the product Rx(-pitch) . Ry(-roll) . Rz(-yaw), in the reverse order
    with the angles negated, and multiplying the matrix by its transpose
    on the right gives the identity as well. *)
Theorem euler_transpose_is_inverse (yaw pitch roll : R) :
  ∃ M,
    Camparameters.euler_to_rotation_matrix (Fin yaw) (Fin pitch) (Fin roll) = Ok M
    ∧ (finite (Rx (deg (- pitch))) @@ finite (Ry (deg (- roll))))
        ≫= (fun N => N @@ finite (Rz (deg (- yaw))))
      = Ok (transpose M)
    ∧ M @@ transpose M = Ok identity3.
Proof.
  eexists. split; [apply euler_finite|]. split.
  - rewrite !deg_opp. apply reverse_product.
  - apply rotation_times_transpose.
Qed.

(** X4. One angle at a time gives the elementary rotations: yaw alone is
    Rz, pitch alone is Rx, roll alone is Ry. *)
Theorem euler_single_angle (t : R) :
  Camparameters.euler_to_rotation_matrix (Fin t) (Fin 0) (Fin 0) = Ok (finite (Rz (deg t)))
  ∧ Camparameters.euler_to_rotation_matrix (Fin 0) (Fin t) (Fin 0) = Ok (finite (Rx (deg t)))
  ∧ Camparameters.euler_to_rotation_matrix (Fin 0) (Fin 0) (Fin t) = Ok (finite (Ry (deg t))).
Proof.
  rewrite !euler_finite, deg_0.
  run_arrays. rewrite cos_0, sin_0.
  repeat split; entries. all: ring.
Qed.

(** ** What [main] prints for a camera *)

Ltac step_io :=
  lazy [mbind io_bind lift Camparameters.save_camera_yaml release print
        cv2.write cv2.open_write cv2.filename cv2.nodes files stdout].

Lemma viewing_column (a b c : R) :
  getcolumn (finite (rotation_entries a b c)) 2
  = Ok [ Fin (cos a * sin c * cos b + sin a * sin b);
         Fin (sin a * sin c * cos b - cos a * sin b);
         Fin (cos c * cos b) ].
Proof. reflexivity. Qed.

(** One turn of the loop of [main] on finite angles, in full. *)
Lemma main_step_finite f wd ht idx name (yaw pitch roll : R) ip port (w : world) :
  Camparameters.camera_step f wd ht
    (idx, name, Fin yaw, Fin pitch, Fin roll, ip, port) w
  = (Ok tt,
     {| files := <[camera_file_name idx :=
                     calibration_fields f (fdiv wd (of_int 2)) (fdiv ht (of_int 2))
                       (finite (rotation_entries (deg yaw) (deg pitch) (deg roll)))
                     ++ metadata_fields name ip port]> (files w);
        stdout := stdout w
                  ++ [ Saved (camera_file_name idx);
                       ViewingDirection
                         (Fin (cos (deg yaw) * sin (deg roll) * cos (deg pitch)
                               + sin (deg yaw) * sin (deg pitch)))
                         (Fin (sin (deg yaw) * sin (deg roll) * cos (deg pitch)
                               - cos (deg yaw) * sin (deg pitch)))
                         (Fin (cos (deg roll) * cos (deg pitch)));
                       DetLine (Fin 1) "✓" ] |}).
Proof.
  unfold Camparameters.camera_step. rewrite euler_finite. destruct w as [fs out].
  step_io. rewrite viewing_column. step_io.
  lazy [getitem nth_error]. rewrite det_rotation. step_io.
  change (flt (fabs (fsub (Fin 1) (Fin 1))) (Fin (1 / 1000)))
    with (within (Fin (1 / 1000)) (Fin 1) (Fin 1)).
  rewrite within_self by lra.
  rewrite <- !app_assoc. reflexivity.
Qed.

(** X5. For a camera with finite angles [main] prints, as the viewing
    direction, the third column of the rotation matrix, which is the image
    of the axis (0,0,1); it is a unit vector, and its third component
    cos(roll) cos(pitch) does not depend on the yaw. *)
Theorem viewing_direction_is_unit f wd ht idx name (yaw pitch roll : R) ip port
    (w : world) :
  ∃ Rot x y z,
    Camparameters.euler_to_rotation_matrix (Fin yaw) (Fin pitch) (Fin roll) = Ok Rot
    ∧ ViewingDirection (Fin x) (Fin y) (Fin z)
      ∈ stdout (snd (Camparameters.camera_step f wd ht
                       (idx, name, Fin yaw, Fin pitch, Fin roll, ip, port) w))
    ∧ Rot @@ [[Fin 0]; [Fin 0]; [Fin 1]] = Ok [[Fin x]; [Fin y]; [Fin z]]
    ∧ x * x + y * y + z * z = 1
    ∧ z = cos (deg roll) * cos (deg pitch).
Proof.
  exists (finite (rotation_entries (deg yaw) (deg pitch) (deg roll))),
    (cos (deg yaw) * sin (deg roll) * cos (deg pitch) + sin (deg yaw) * sin (deg pitch)),
    (sin (deg yaw) * sin (deg roll) * cos (deg pitch) - cos (deg yaw) * sin (deg pitch)),
    (cos (deg roll) * cos (deg pitch)).
  split; [apply euler_finite|].
  split; [rewrite main_step_finite; cbn [snd stdout]; set_solver|].
  split; [run_arrays; run_finite; entries; ring|].
  split; [| reflexivity].
  trig_names (deg yaw). trig_names (deg pitch). trig_names (deg roll). nsatz.
Qed.

(** NaN is absorbing for the arithmetic. *)
Lemma fmul_NaN_l (a : pyfloat) : fmul NaN a = NaN.
Proof. reflexivity. Qed.

Lemma fmul_NaN_r (a : pyfloat) : fmul a NaN = NaN.
Proof. destruct a; reflexivity. Qed.

Lemma fadd_NaN_l (a : pyfloat) : fadd NaN a = NaN.
Proof. reflexivity. Qed.

Lemma fadd_NaN_r (a : pyfloat) : fadd a NaN = NaN.
Proof. destruct a; reflexivity. Qed.

Lemma fneg_NaN : fneg NaN = NaN.
Proof. reflexivity. Qed.

Lemma fsub_NaN_l (a : pyfloat) : fsub NaN a = NaN.
Proof. reflexivity. Qed.

Lemma fsub_NaN_r (a : pyfloat) : fsub a NaN = NaN.
Proof. destruct a; reflexivity. Qed.

Lemma fdiv_NaN_r (a : pyfloat) : fdiv a NaN = NaN.
Proof. destruct a; reflexivity. Qed.

Create Rewrite HintDb nan.
#[local] Hint Rewrite fmul_NaN_l fmul_NaN_r fadd_NaN_l fadd_NaN_r fneg_NaN
  fsub_NaN_l fsub_NaN_r fdiv_NaN_r : nan.

Lemma radians_not_finite (a : pyfloat) :
  is_finite a = false → is_finite (np.radians a) = false.
Proof.
  destruct a as [x|s|]; intros H; try discriminate H; [| reflexivity].
  unfold np.radians, fmul. destruct (Req_dec_T (PI / 180) 0); reflexivity.
Qed.

Lemma cos_not_finite (a : pyfloat) : is_finite a = false → np.cos a = NaN.
Proof. destruct a; intros H; [discriminate H | reflexivity | reflexivity]. Qed.

Lemma sin_not_finite (a : pyfloat) : is_finite a = false → np.sin a = NaN.
Proof. destruct a; intros H; [discriminate H | reflexivity | reflexivity]. Qed.

Ltac forget_trig a :=
  generalize (np.cos (np.radians a)); generalize (np.sin (np.radians a)); intros.

Ltac nan_matrix :=
  eexists; split;
  [ cbv [matmul rectangular ncols forallb length Nat.eqb andb mbind result_bind
         transpose column seq map nth dot zip_with fold_left];
    autorewrite with nan; reflexivity
  | cbv [det laplace rectangular ncols forallb length Nat.eqb andb
         remove_at firstn skipn app combine seq map fst snd Nat.even fold_left];
    autorewrite with nan; reflexivity ].

Lemma euler_not_finite (yaw pitch roll : pyfloat) :
  is_finite yaw && is_finite pitch && is_finite roll = false →
  ∃ Rot,
    Camparameters.euler_to_rotation_matrix yaw pitch roll = Ok Rot
    ∧ det Rot = Ok NaN.
Proof.
  intros H. unfold Camparameters.euler_to_rotation_matrix.
  destruct (is_finite yaw) eqn:Hy.
  - destruct (is_finite pitch) eqn:Hp.
    + destruct (is_finite roll) eqn:Hr; [discriminate H|].
      rewrite (cos_not_finite (np.radians roll)), (sin_not_finite (np.radians roll))
        by (apply radians_not_finite, Hr).
      forget_trig yaw. forget_trig pitch. nan_matrix.
    + rewrite (cos_not_finite (np.radians pitch)), (sin_not_finite (np.radians pitch))
        by (apply radians_not_finite, Hp).
      forget_trig yaw. forget_trig roll. nan_matrix.
  - rewrite (cos_not_finite (np.radians yaw)), (sin_not_finite (np.radians yaw))
      by (apply radians_not_finite, Hy).
    forget_trig pitch. forget_trig roll. nan_matrix.
Qed.

(** X6. The determinant check of [main] passes exactly for finite angles:
    the line printed for a camera carries the mark "✓" when yaw, pitch and
    roll are all finite numbers, and "✗ ERROR" as soon as one of them is an
    infinity or NaN (the determinant is then NaN). *)
Theorem determinant_check_passes_iff_finite f wd ht idx name yaw pitch roll ip port
    (w : world) :
  ∃ Rot d,
    Camparameters.euler_to_rotation_matrix yaw pitch roll = Ok Rot
    ∧ det Rot = Ok d
    ∧ flt (fabs (fsub d (Fin 1))) (Fin (1 / 1000))
      = is_finite yaw && is_finite pitch && is_finite roll
    ∧ DetLine d (if is_finite yaw && is_finite pitch && is_finite roll
                 then "✓" else "✗ ERROR")
      ∈ stdout (snd (Camparameters.camera_step f wd ht
                       (idx, name, yaw, pitch, roll, ip, port) w)).
Proof.
  destruct (main_step_run f wd ht idx name yaw pitch roll ip port w)
    as (Rot & x & y & z & d & HR & Hd & ->).
  assert (Hcheck : flt (fabs (fsub d (Fin 1))) (Fin (1 / 1000))
                   = is_finite yaw && is_finite pitch && is_finite roll).
  { destruct (is_finite yaw && is_finite pitch && is_finite roll) eqn:Hfin.
    - destruct yaw as [y0| |], pitch as [p0| |], roll as [r0| |]; try discriminate Hfin.
      assert (HRot : Rot = finite (rotation_entries (deg y0) (deg p0) (deg r0)))
        by (rewrite euler_finite in HR; congruence).
      rewrite HRot, det_rotation in Hd.
      assert (Hone : d = Fin 1) by congruence.
      rewrite Hone. apply (within_self (1 / 1000) 1). lra.
    - destruct (euler_not_finite yaw pitch roll Hfin) as (Rot' & HR' & Hd').
      assert (HRot : Rot' = Rot) by congruence.
      rewrite HRot, Hd in Hd'.
      assert (Hnan : d = NaN) by congruence.
      rewrite Hnan. reflexivity. }
  exists Rot, d. split; [exact HR|]. split; [exact Hd|]. split; [exact Hcheck|].
  cbn [snd stdout]. unfold det_mark, within. rewrite Hcheck. set_solver.
Qed.

(** ** The focal length over the whole range of angles *)

Lemma tan_half_fov_pos (fov : R) : 0 < fov < 180 → 0 < tan (deg fov / 2).
Proof.
  intros Hfov. destruct (half_fov_range fov Hfov). apply tan_gt_0; assumption.
Qed.

(** X7. Inside (0, 180) and for a positive width the focal length is
    positive, and a wider field of view gives a strictly shorter focal
    length. *)
Theorem focal_length_decreases (fov1 fov2 width : R) :
  0 < fov1 → fov1 < fov2 → fov2 < 180 → 0 < width →
  ∃ f1 f2,
    Camparameters.fov_to_focal_length (Fin fov1) (Fin width) = Fin f1
    ∧ Camparameters.fov_to_focal_length (Fin fov2) (Fin width) = Fin f2
    ∧ 0 < f2 ∧ f2 < f1.
Proof.
  intros H1 H12 H2 Hw.
  rewrite !focal_length_finite by lra.
  eexists _, _. split; [reflexivity|]. split; [reflexivity|].
  pose proof (tan_half_fov_pos fov1 ltac:(lra)) as Ht1.
  destruct (half_fov_range fov1 ltac:(lra)) as [Ha1 Hb1].
  destruct (half_fov_range fov2 ltac:(lra)) as [Ha2 Hb2].
  assert (Hlt : tan (deg fov1 / 2) < tan (deg fov2 / 2)).
  { apply tan_increasing; [lra | | lra].
    unfold deg. pose proof PI_RGT_0. nra. }
  split.
  - apply Rdiv_lt_0_compat; lra.
  - unfold Rdiv. apply Rmult_lt_compat_l; [exact Hw|].
    apply Rinv_lt_contravar; [nra | lra].
Qed.

Lemma focal_length_decreases_witness :
  0 < 90 ∧ 90 < 120 ∧ 120 < 180 ∧ 0 < 1280
  ∧ ∃ f1 f2,
    Camparameters.fov_to_focal_length (Fin 90) (Fin 1280) = Fin f1
    ∧ Camparameters.fov_to_focal_length (Fin 120) (Fin 1280) = Fin f2
    ∧ 0 < f2 ∧ f2 < f1.
Proof.
  repeat (split; [lra|]).
  apply (focal_length_decreases 90 120 1280); lra.
Defined.

(** X8. The conversion can be undone: for a field of view in (0, 180) and
    a positive width, twice the arc tangent of width / (2 f) is the field
    of view again (in radians). *)
Theorem focal_length_round_trip (fov width : R) :
  0 < fov < 180 → 0 < width →
  ∃ f,
    Camparameters.fov_to_focal_length (Fin fov) (Fin width) = Fin f
    ∧ 2 * atan (width / (2 * f)) = deg fov.
Proof.
  intros Hfov Hw. rewrite focal_length_finite by exact Hfov.
  eexists. split; [reflexivity|].
  pose proof (tan_half_fov_pos fov Hfov) as Ht.
  destruct (half_fov_range fov Hfov) as [Ha Hb].
  replace (width / (2 * (width / (2 * tan (deg fov / 2)))))
    with (tan (deg fov / 2)) by (field; lra).
  rewrite atan_tan by lra. field.
Qed.

Lemma focal_length_round_trip_witness :
  0 < 120 < 180 ∧ 0 < 1280
  ∧ ∃ f,
    Camparameters.fov_to_focal_length (Fin 120) (Fin 1280) = Fin f
    ∧ 2 * atan (1280 / (2 * f)) = deg 120.
Proof.
  split; [lra|]. split; [lra|].
  apply (focal_length_round_trip 120 1280); lra.
Defined.

(** X9. Between 180 and 360 degrees nothing is rejected either: for a
    positive width the function returns a negative focal length. *)
Theorem focal_length_negative_beyond_180 (fov width : R) :
  180 < fov < 360 → 0 < width →
  ∃ f,
    Camparameters.fov_to_focal_length (Fin fov) (Fin width) = Fin f
    ∧ f < 0.
Proof.
  intros [Hlo Hhi] Hw. pose proof PI_RGT_0 as Hpi.
  assert (Ha : PI / 2 < deg fov / 2 < PI) by (unfold deg; split; nra).
  assert (Hcos : cos (deg fov / 2) < 0) by (apply cos_lt_0; lra).
  assert (Hsin : 0 < sin (deg fov / 2)) by (apply sin_gt_0; lra).
  assert (Htan : tan (deg fov / 2) < 0).
  { unfold tan, Rdiv.
    pose proof (Rinv_lt_0_compat _ Hcos). nra. }
  unfold Camparameters.fov_to_focal_length, np.radians, of_int.
  cbv [fmul]. fold (deg fov).
  rewrite fdiv_fin by lra. rewrite tan_fin by lra.
  rewrite fdiv_fin by lra.
  eexists. split; [reflexivity|].
  unfold Rdiv.
  assert (Hinv : / (2 * tan (deg fov / 2)) < 0) by (apply Rinv_lt_0_compat; lra).
  nra.
Qed.

Lemma focal_length_negative_beyond_180_witness :
  180 < 200 < 360 ∧ 0 < 1280
  ∧ ∃ f,
    Camparameters.fov_to_focal_length (Fin 200) (Fin 1280) = Fin f
    ∧ f < 0.
Proof.
  split; [lra|]. split; [lra|].
  apply (focal_length_negative_beyond_180 200 1280); lra.
Defined.

(** X10. A field of view that is an infinity or NaN gives the focal
    length NaN, whatever the width; no exception is raised. *)
Theorem focal_length_of_non_finite (fov width : pyfloat) :
  is_finite fov = false →
  Camparameters.fov_to_focal_length fov width = NaN.
Proof.
  intros Hfov. unfold Camparameters.fov_to_focal_length.
  assert (Htan : np.tan (fdiv (np.radians fov) (of_int 2)) = NaN).
  { pose proof (radians_not_finite fov Hfov) as Hrad.
    destruct (np.radians fov) as [x|s|]; [discriminate Hrad | reflexivity | reflexivity]. }
  rewrite Htan, fmul_NaN_r, fdiv_NaN_r. reflexivity.
Qed.

Lemma focal_length_of_non_finite_witness :
  is_finite (Inf false) = false
  ∧ Camparameters.fov_to_focal_length (Inf false) (of_int 1280) = NaN.
Proof.
  split; [reflexivity|].
  apply (focal_length_of_non_finite (Inf false) (of_int 1280)). reflexivity.
Defined.

(** ** The intrinsic matrix and the field of view *)

Lemma intrinsic_projects (f cx cy x : R) :
  intrinsic (Fin f) (Fin cx) (Fin cy) @@ [[Fin x]; [Fin 0]; [Fin 1]]
  = Ok [[Fin (f * x + cx)]; [Fin cy]; [Fin 1]].
Proof.
  unfold intrinsic. run_arrays. run_finite. entries. all: ring.
Qed.

(** X11. The focal length fits the image to the field of view.  With the
    focal length computed from a field of view in (0, 180) and the image
    width, the intrinsic matrix that [save_camera_yaml] stores under
    "Intrisic" sends the optical axis to the image centre
    (width/2, height/2) and the two rays at half the field of view to the
    left and right borders, x = 0 and x = width. *)
Theorem field_of_view_spans_the_image idx name Rot (fov width height : R) ip port
    (w : world) :
  0 < fov < 180 →
  let f := Camparameters.fov_to_focal_length (Fin fov) (Fin width) in
  ∃ K,
    files (snd (Camparameters.save_camera_yaml idx name Rot f
                  (fdiv (Fin width) (of_int 2)) (fdiv (Fin height) (of_int 2))
                  ip port w))
      !! camera_file_name idx ≫= doc_get "Intrisic"
    = Some (cv2.Mat np.float32 K)
    ∧ K @@ ray_at fov 0 = Ok [[Fin (width / 2)]; [Fin (height / 2)]; [Fin 1]]
    ∧ K @@ ray_at fov 1 = Ok [[Fin width]; [Fin (height / 2)]; [Fin 1]]
    ∧ K @@ ray_at fov (-1) = Ok [[Fin 0]; [Fin (height / 2)]; [Fin 1]].
Proof.
  intros Hfov f. subst f.
  pose proof (tan_half_fov_pos fov Hfov) as Ht.
  rewrite focal_length_finite by exact Hfov.
  unfold of_int. rewrite !fdiv_fin by lra.
  eexists. split.
  - rewrite save_camera_yaml_run. cbn [snd files].
    rewrite lookup_insert_eq. reflexivity.
  - fold (intrinsic (Fin (width / (2 * tan (deg fov / 2))))
            (Fin (width / 2)) (Fin (height / 2))).
    unfold ray_at. rewrite !intrinsic_projects.
    repeat split; entries; field; lra.
Qed.

Lemma field_of_view_spans_the_image_witness :
  0 < 120 < 180
  ∧ ∃ K,
      files (snd (Camparameters.save_camera_yaml 0 "Front" identity3
                    (Camparameters.fov_to_focal_length (Fin 120) (Fin 1280))
                    (fdiv (Fin 1280) (of_int 2)) (fdiv (Fin 800) (of_int 2))
                    "192.168.45.10" 5020 empty_world))
        !! camera_file_name 0 ≫= doc_get "Intrisic"
      = Some (cv2.Mat np.float32 K)
      ∧ K @@ ray_at 120 0 = Ok [[Fin (1280 / 2)]; [Fin (800 / 2)]; [Fin 1]]
      ∧ K @@ ray_at 120 1 = Ok [[Fin 1280]; [Fin (800 / 2)]; [Fin 1]]
      ∧ K @@ ray_at 120 (-1) = Ok [[Fin 0]; [Fin (800 / 2)]; [Fin 1]].
Proof.
  split; [lra|].
  apply (field_of_view_spans_the_image 0 "Front" identity3 120 1280 800
           "192.168.45.10" 5020 empty_world).
  lra.
Defined.

(** ** The file system after a run *)

Lemma string_app_cons (c : Ascii.ascii) (s t : string) :
  String c s +:+ t = String c (s +:+ t).
Proof. reflexivity. Qed.

Lemma string_length_app (s t : string) :
  String.length (s +:+ t) = (String.length s + String.length t)%nat.
Proof.
  induction s as [|c s IH]; [reflexivity|].
  rewrite string_app_cons. cbn [String.length]. rewrite IH. reflexivity.
Qed.

Lemma string_app_inv_tail (s1 s2 t : string) : s1 +:+ t = s2 +:+ t → s1 = s2.
Proof.
  revert s2. induction s1 as [|c s1 IH]; intros [|c' s2] H.
  - reflexivity.
  - apply (f_equal String.length) in H.
    rewrite !string_length_app in H. cbn [String.length] in H. lia.
  - apply (f_equal String.length) in H.
    rewrite !string_length_app in H. cbn [String.length] in H. lia.
  - rewrite !string_app_cons in H. injection H as -> H. f_equal. apply IH, H.
Qed.

Lemma str_inj (i j : Z) : str i = str j → i = j.
Proof.
  unfold str. intros H. apply DecimalZ.to_int_inj.
  assert (Hnil : ∀ z, Z.to_int z ≠ Decimal.Pos Decimal.Nil
                      ∧ Z.to_int z ≠ Decimal.Neg Decimal.Nil).
  { intros [|p|p]; cbn; split; try discriminate.
    - intros E. injection E as E. exact (DecimalPos.Unsigned.to_uint_nonnil p E).
    - intros E. injection E as E. exact (DecimalPos.Unsigned.to_uint_nonnil p E). }
  destruct (Hnil i) as [Hi1 Hi2]. destruct (Hnil j) as [Hj1 Hj2].
  pose proof (NilZero.isi _ Hi1 Hi2) as Ei.
  pose proof (NilZero.isi _ Hj1 Hj2) as Ej.
  rewrite H in Ei. rewrite Ei in Ej. injection Ej as Ej. exact Ej.
Qed.

Lemma camera_file_name_inj (i j : Z) : camera_file_name i = camera_file_name j → i = j.
Proof.
  intros H. apply str_inj.
  unfold camera_file_name in H.
  apply (String.app_inj "Camparam") in H.
  apply string_app_inv_tail in H. exact H.
Qed.

(** X12. Cameras with different indices get different file names. *)
Theorem camera_file_names_differ (i j : Z) :
  i ≠ j → camera_file_name i ≠ camera_file_name j.
Proof. intros Hij H. apply Hij, camera_file_name_inj, H. Qed.

Lemma camera_file_names_differ_witness :
  0%Z ≠ 1%Z ∧ camera_file_name 0 ≠ camera_file_name 1.
Proof.
  split; [discriminate|].
  apply (camera_file_names_differ 0 1). discriminate.
Defined.

Lemma main_step_stores (c : config) (w : world) (cam : camera) :
  files (main_step c w cam) = <[camera_file cam := stored_by_main c cam]> (files w).
Proof.
  destruct cam as [[[[[[idx name] yaw] pitch] roll] ip] port].
  unfold main_step, stored_by_main, rotation_of, camera_file.
  cbn [camera_angles camera_idx].
  destruct (main_step_run
              (Camparameters.fov_to_focal_length (horizontal_fov c) (image_width c))
              (image_width c) (image_height c) idx name yaw pitch roll ip port w)
    as (Rot & x & y & z & d & HR & _ & ->).
  rewrite HR. reflexivity.
Qed.

Lemma script_step_stores (c : config) (w : world) (cam : camera) :
  files (script_step c w cam) = <[camera_file cam := stored_by_script c cam]> (files w).
Proof.
  destruct cam as [[[[[[idx name] yaw] pitch] roll] ip] port].
  unfold script_step, stored_by_script, rotation_of, camera_file.
  cbn [camera_angles camera_idx].
  destruct (script_step_run
              (GenerateCals.fov_to_focal_length (horizontal_fov c) (image_width c))
              (image_width c) (image_height c) idx name yaw pitch roll ip port w)
    as (Rot & x & y & z & HR & ->).
  change (GenerateCals.euler_to_rotation_matrix yaw pitch roll)
    with (Camparameters.euler_to_rotation_matrix yaw pitch roll) in HR.
  rewrite HR. reflexivity.
Qed.

Lemma main_loop_stores (c : config) (cams : list camera) (w : world) :
  files (fold_left (main_step c) cams w) = store_all (stored_by_main c) cams (files w).
Proof.
  revert w. induction cams as [|cam cams IH]; intros w; [reflexivity|].
  cbn [fold_left]. rewrite IH, main_step_stores. reflexivity.
Qed.

Lemma script_loop_stores (c : config) (cams : list camera) (w : world) :
  files (fold_left (script_step c) cams w) = store_all (stored_by_script c) cams (files w).
Proof.
  revert w. induction cams as [|cam cams IH]; intros w; [reflexivity|].
  cbn [fold_left]. rewrite IH, script_step_stores. reflexivity.
Qed.

Lemma main_with_files (c : config) (w : world) :
  files (snd (Camparameters.main_with c w))
  = <["corner_warppts.yaml" := crop_document]>
      (store_all (stored_by_main c) (cameras c) (files w)).
Proof. rewrite main_with_run. cbn [snd with_crop files]. rewrite main_loop_stores. reflexivity. Qed.

Lemma script_with_files (c : config) (w : world) :
  files (snd (GenerateCals.script_with c w))
  = <["corner_warppts.yaml" := crop_document]>
      (store_all (stored_by_script c) (cameras c) (files w)).
Proof. rewrite script_with_run. cbn [snd with_crop files]. rewrite script_loop_stores. reflexivity. Qed.

(** Storing a list of documents: each name holds the document of the last
    camera with that file name, every other name is as before. *)
Section StoreAll.

Variable doc : camera → cv2.document.

Lemma store_all_snoc (cams : list camera) (cam : camera) (m : gmap string cv2.document) :
  store_all doc (cams ++ [cam]) m
  = <[camera_file cam := doc cam]> (store_all doc cams m).
Proof. unfold store_all. rewrite fold_left_app. reflexivity. Qed.

Lemma store_all_lookup (cams : list camera) (m : gmap string cv2.document) (k : string) :
  store_all doc cams m !! k
  = match last_camera_of cams k with
    | Some cam => Some (doc cam)
    | None => m !! k
    end.
Proof.
  induction cams as [|cam cams IH] using rev_ind; [reflexivity|].
  rewrite store_all_snoc. unfold last_camera_of. rewrite rev_unit. cbn [find].
  destruct (bool_decide_reflect (camera_file cam = k)) as [<-|Hne].
  - apply lookup_insert_eq.
  - rewrite lookup_insert_ne by exact Hne. exact IH.
Qed.

Lemma last_camera_of_file (cams : list camera) (k : string) (cam : camera) :
  last_camera_of cams k = Some cam → cam ∈ cams ∧ camera_file cam = k.
Proof.
  unfold last_camera_of. intros H. apply find_some in H as [Hin Hk].
  split.
  - apply list_elem_of_In, in_rev, Hin.
  - apply bool_decide_eq_true in Hk. exact Hk.
Qed.

Lemma last_camera_of_none (cams : list camera) (k : string) :
  k ∉ map camera_file cams → last_camera_of cams k = None.
Proof.
  intros Hk. destruct (last_camera_of cams k) as [cam|] eqn:H; [| reflexivity].
  apply last_camera_of_file in H as [Hin <-].
  exfalso. apply Hk. apply list_elem_of_fmap. exists cam. auto.
Qed.

Lemma last_camera_of_app (pre post : list camera) (cam : camera) :
  camera_file cam ∉ map camera_file post →
  last_camera_of (pre ++ cam :: post) (camera_file cam) = Some cam.
Proof.
  intros Hpost. unfold last_camera_of.
  rewrite rev_app_distr. cbn [rev]. rewrite <- app_assoc. cbn [app].
  assert (Hskip : ∀ l rest, camera_file cam ∉ map camera_file l →
            find (fun c0 => bool_decide (camera_file c0 = camera_file cam)) (l ++ rest)
            = find (fun c0 => bool_decide (camera_file c0 = camera_file cam)) rest).
  { induction l as [|c0 l IHl]; intros rest Hl; [reflexivity|].
    cbn [app find]. rewrite bool_decide_eq_false_2.
    - apply IHl. intros Hin. apply Hl. cbn [map]. apply elem_of_cons. right. exact Hin.
    - intros E. apply Hl. cbn [map]. apply elem_of_cons. left. symmetry. exact E. }
  rewrite Hskip.
  - cbn [find]. rewrite bool_decide_eq_true_2 by reflexivity. reflexivity.
  - intros Hin. apply Hpost.
    apply list_elem_of_fmap in Hin as (c0 & E & Hc0).
    apply list_elem_of_fmap. exists c0. split; [exact E|].
    apply list_elem_of_In. apply list_elem_of_In in Hc0. apply in_rev. exact Hc0.
Qed.

End StoreAll.

(** A run over files that an earlier run over the same cameras left, with
    the crop file in between, gives what the run alone gives. *)
Lemma store_all_again (doc doc' : camera → cv2.document) (cams : list camera)
    (m : gmap string cv2.document) :
  <["corner_warppts.yaml" := crop_document]>
    (store_all doc cams
       (<["corner_warppts.yaml" := crop_document]> (store_all doc' cams m)))
  = <["corner_warppts.yaml" := crop_document]> (store_all doc cams m).
Proof.
  apply map_eq. intros k.
  destruct (decide ("corner_warppts.yaml" = k)) as [<-|Hk].
  - rewrite !lookup_insert_eq. reflexivity.
  - rewrite !lookup_insert_ne by exact Hk. rewrite !store_all_lookup.
    destruct (last_camera_of cams k) eqn:E; [reflexivity|].
    rewrite lookup_insert_ne by exact Hk. rewrite store_all_lookup, E.
    reflexivity.
Qed.

Lemma store_all_dom (doc : camera → cv2.document) (cams : list camera)
    (m : gmap string cv2.document) :
  dom (store_all doc cams m) = dom m ∪ list_to_set (map camera_file cams).
Proof.
  induction cams as [|cam cams IH] using rev_ind.
  - cbn. set_solver.
  - rewrite store_all_snoc, dom_insert_L, IH, map_app, list_to_set_app_L.
    cbn [map list_to_set]. set_solver.
Qed.

Lemma rotation_of_ok (cam : camera) : ∃ Rot, rotation_of cam = Ok Rot.
Proof.
  destruct cam as [[[[[[idx name] yaw] pitch] roll] ip] port].
  unfold rotation_of. cbn [camera_angles].
  destruct (euler_shape yaw pitch roll) as (a & b & c & d & e & f & g & h & i & H).
  eauto.
Qed.

(** X13. The file of an index holds the document of the last camera of the
    rig with that index: its own name, address and rotation next to the
    shared focal length and intrinsic matrix.  A camera earlier in the list
    with the same index is overwritten without notice. *)
Theorem last_camera_with_an_index_wins (c : config) (w : world)
    (pre post : list camera) (cam : camera) :
  cameras c = pre ++ cam :: post →
  camera_idx cam ∉ map camera_idx post →
  ∃ Rot,
    rotation_of cam = Ok Rot
    ∧ files (snd (Camparameters.main_with c w)) !! camera_file_name (camera_idx cam)
      = Some (main_document c cam Rot).
Proof.
  intros Hcams Hpost.
  destruct (rotation_of_ok cam) as (Rot & HR). exists Rot. split; [exact HR|].
  rewrite main_with_files.
  rewrite lookup_insert_ne by (apply not_eq_sym, camera_file_is_not_crop).
  fold (camera_file cam). rewrite store_all_lookup, Hcams, last_camera_of_app.
  - unfold stored_by_main. rewrite HR. reflexivity.
  - intros Hin. apply Hpost.
    apply list_elem_of_fmap in Hin as (c0 & E & Hc0).
    apply list_elem_of_fmap. exists c0. split; [| exact Hc0].
    apply camera_file_name_inj, E.
Qed.

Lemma last_camera_with_an_index_wins_witness :
  cameras configuration
  = [ (0%Z, "Front", of_int 0, of_int 20, of_int 0, "192.168.45.10", 5020%Z);
      (1%Z, "Left", of_int 90, of_int 20, of_int 0, "192.168.45.11", 5021%Z);
      (2%Z, "Rear", of_int 180, of_int 20, of_int 0, "192.168.45.12", 5022%Z) ]
    ++ [ (3%Z, "Right", of_int 270, of_int 20, of_int 0, "192.168.45.13", 5023%Z) ]
  ∧ (3%Z ∉ map camera_idx [])
  ∧ ∃ Rot,
      rotation_of (3%Z, "Right", of_int 270, of_int 20, of_int 0, "192.168.45.13", 5023%Z)
      = Ok Rot
      ∧ files (snd (Camparameters.main_with configuration empty_world))
          !! camera_file_name 3
        = Some (main_document configuration
                  (3%Z, "Right", of_int 270, of_int 20, of_int 0, "192.168.45.13", 5023%Z)
                  Rot).
Proof.
  split; [reflexivity|]. split; [apply not_elem_of_nil|].
  apply (last_camera_with_an_index_wins configuration empty_world
           [ (0%Z, "Front", of_int 0, of_int 20, of_int 0, "192.168.45.10", 5020%Z);
             (1%Z, "Left", of_int 90, of_int 20, of_int 0, "192.168.45.11", 5021%Z);
             (2%Z, "Rear", of_int 180, of_int 20, of_int 0, "192.168.45.12", 5022%Z) ]
           []
           (3%Z, "Right", of_int 270, of_int 20, of_int 0, "192.168.45.13", 5023%Z)).
  - reflexivity.
  - apply not_elem_of_nil.
Defined.

(** X14. A run adds the files of the cameras and the crop file and no
    other: the names present after [main], or after the second script, are
    those present before, the names Camparam<idx>.yaml of the cameras of
    the rig, and corner_warppts.yaml. *)
Theorem files_created (c : config) (w : world) :
  dom (files (snd (Camparameters.main_with c w)))
  = dom (files w) ∪ list_to_set (map camera_file (cameras c)) ∪ {["corner_warppts.yaml"]}
  ∧ dom (files (snd (GenerateCals.script_with c w)))
    = dom (files w) ∪ list_to_set (map camera_file (cameras c)) ∪ {["corner_warppts.yaml"]}.
Proof.
  rewrite main_with_files, script_with_files, !dom_insert_L, !store_all_dom.
  split; set_solver.
Qed.

(** X15. From an empty directory, a rig of n cameras with pairwise
    distinct indices leaves exactly n + 1 files. *)
Theorem number_of_files (c : config) :
  NoDup (map camera_idx (cameras c)) →
  size (files (snd (Camparameters.main_with c empty_world))) = S (length (cameras c)).
Proof.
  intros Hnodup.
  rewrite <- size_dom, main_with_files, dom_insert_L, store_all_dom.
  cbn [files empty_world]. rewrite dom_empty_L, (left_id_L ∅ (∪)).
  assert (Hnames : NoDup (map camera_file (cameras c))).
  { clear -Hnodup. induction (cameras c) as [|cam cams IH]; [constructor|].
    cbn [map] in *. apply NoDup_cons in Hnodup as [Hcam Hrest].
    apply NoDup_cons. split; [| apply IH, Hrest].
    intros Hin. apply Hcam.
    apply list_elem_of_fmap in Hin as (c0 & E & Hc0).
    apply list_elem_of_fmap. exists c0. split; [| exact Hc0].
    apply camera_file_name_inj, E. }
  rewrite size_union.
  - rewrite size_singleton, size_list_to_set by exact Hnames.
    rewrite length_map. lia.
  - apply disjoint_singleton_l. intros Hin.
    apply elem_of_list_to_set, list_elem_of_fmap in Hin as (c0 & E & _).
    symmetry in E. exact (camera_file_is_not_crop _ E).
Qed.

Lemma number_of_files_witness :
  NoDup (map camera_idx (cameras configuration))
  ∧ size (files (snd (Camparameters.main_with configuration empty_world))) = 5%nat.
Proof.
  assert (H : NoDup (map camera_idx (cameras configuration))).
  { cbn. repeat constructor.
    all: rewrite ?elem_of_cons, elem_of_nil.
    all: intros E; repeat destruct E as [E|E]; try discriminate E; exact E. }
  split; [exact H|].
  apply (number_of_files configuration). exact H.
Defined.

(** X16. A run touches no other file: a name that is neither the crop file
    nor the file of a camera of the rig holds after [main], and after the
    second script, what it held before. *)
Theorem other_files_untouched (c : config) (w : world) (k : string) :
  k ≠ "corner_warppts.yaml" →
  k ∉ map camera_file (cameras c) →
  files (snd (Camparameters.main_with c w)) !! k = files w !! k
  ∧ files (snd (GenerateCals.script_with c w)) !! k = files w !! k.
Proof.
  intros Hcrop Hk.
  rewrite main_with_files, script_with_files.
  rewrite !lookup_insert_ne by (apply not_eq_sym, Hcrop).
  rewrite !store_all_lookup, last_camera_of_none by exact Hk.
  split; reflexivity.
Qed.

Lemma other_files_untouched_witness :
  "notes.txt" ≠ "corner_warppts.yaml"
  ∧ "notes.txt" ∉ map camera_file (cameras configuration)
  ∧ files (snd (Camparameters.main_with configuration empty_world)) !! "notes.txt"
    = files empty_world !! "notes.txt"
  ∧ files (snd (GenerateCals.script_with configuration empty_world)) !! "notes.txt"
    = files empty_world !! "notes.txt".
Proof.
  assert (H1 : "notes.txt" ≠ "corner_warppts.yaml") by discriminate.
  assert (H2 : "notes.txt" ∉ map camera_file (cameras configuration)).
  { cbn. rewrite !elem_of_cons, elem_of_nil.
    intros E; repeat destruct E as [E|E]; try discriminate E; exact E. }
  split; [exact H1|]. split; [exact H2|].
  apply (other_files_untouched configuration empty_world "notes.txt"); assumption.
Defined.

(** X17. Running again changes nothing, and of two runs the last one
    decides: [main] after [main], and the second script after itself,
    leave the files of a single run; [main] after the second script leaves
    the files of [main], and the other way round. *)
Theorem rerun_leaves_the_same_files (c : config) (w : world) :
  files (snd (Camparameters.main_with c (snd (Camparameters.main_with c w))))
  = files (snd (Camparameters.main_with c w))
  ∧ files (snd (GenerateCals.script_with c (snd (GenerateCals.script_with c w))))
    = files (snd (GenerateCals.script_with c w))
  ∧ files (snd (Camparameters.main_with c (snd (GenerateCals.script_with c w))))
    = files (snd (Camparameters.main_with c w))
  ∧ files (snd (GenerateCals.script_with c (snd (Camparameters.main_with c w))))
    = files (snd (GenerateCals.script_with c w)).
Proof.
  repeat split.
  all: rewrite ?main_with_files, ?script_with_files.
  all: rewrite ?main_with_files, ?script_with_files.
  all: apply store_all_again.
Qed.
